(** * CRA Client: the bootstrap screen and the launch gating engine

    A shallow embedding of the desktop wrapper's frontend
    ([src/main.ts], with its pre-parity predecessor) and of the launch
    gating rules of the specification (parity check, navigation guard,
    layered configuration), together with the properties claimed of
    them.

    The frontend is effectful TypeScript: it writes to a handful of DOM
    nodes, keeps one module variable ([windowVisible]) and talks to the
    native side through [invoke].  It is modelled in a small state and
    exception monad that also records every effect it performs, in
    order. *)

From Stdlib Require Import ZArith.
From stdpp Require Import gmap strings list fin_maps.

(** ** Values exchanged with the native side *)

(** [type BootstrapState] of [main.ts].  A field typed [string | null]
    (or optional) is an [option]: [None] stands for [null] and for
    [undefined], which [??] does not tell apart. *)
Record BootstrapState := mkBootstrapState {
  ready : bool;
  config_error : option string;
  app_url : option string;
  app_host : option string;
  window_title : string;
  window_width : Z;
  window_height : Z;
  version : string;
  reachable : bool;
  reachability_error : option string;
  web_build_hash : option string;
  web_build_time : option string;
  required_web_build_hash : option string;
  build_parity_ok : bool;
  build_parity_error : option string;
  enforce_web_build : bool
}.

(** [type AboutInfo] of [main.ts]. *)
Record AboutInfo := mkAboutInfo {
  about_title : string;
  about_version : string;
  about_app_host : string;
  about_app_url : string;
  about_required_web_build_hash : option string;
  about_enforce_web_build : bool;
  about_web_build_hash : option string;
  about_web_build_time : option string;
  about_web_build_error : option string
}.

(** The commands the frontend passes to [invoke]. *)
Inductive Command :=
| bootstrap_state
| launch_app
| retry_connect
| show_main_window
| get_about_info.

Global Instance Command_eq_dec : EqDecision Command.
Proof. solve_decision. Defined.

(** The first argument of [setStatus]. *)
Inductive StatusKind := loading | ok | warning | error.

Global Instance StatusKind_eq_dec : EqDecision StatusKind.
Proof. solve_decision. Defined.

Definition kind_name (kind : StatusKind) : string :=
  match kind with
  | loading => "loading"
  | ok => "ok"
  | warning => "warning"
  | error => "error"
  end.

(** ** JavaScript operators used by the source *)

(** [a ?? b] on a nullable string. *)
Definition nullish (a : option string) (b : string) : string :=
  match a with
  | Some s => s
  | None => b
  end.

(** Truthiness of a nullable string, as tested by [if (x)] and [||]:
    [null], [undefined] and the empty string are falsy. *)
Definition truthy (a : option string) : bool :=
  match a with
  | Some EmptyString => false
  | Some _ => true
  | None => false
  end.

(** The line feed of a template literal. *)
Definition LF : string := String (Ascii.ascii_of_nat 10) EmptyString.

(** [String(error)] for a caught rejection.  A rejected [invoke] carries
    the native side's error text, so thrown values are strings and
    [String] returns them as they are. *)
Definition String_ (thrown : string) : string := thrown.

(** ** The page *)

(** The DOM nodes [main.ts] writes to, one field per property it sets.
    [classList.add("hidden")] and [remove] are the two [_hidden] flags. *)
Record Dom := mkDom {
  status_className : string;
  status_textContent : string;
  subtitle_textContent : string;
  details_textContent : string;
  details_hidden : bool;
  actions_hidden : bool;
  retry_disabled : bool;
  aboutBody_textContent : string;
  aboutDialog_open : bool
}.

(** The page state: the DOM, the module variable [windowVisible] and the
    commands the native side has received so far, newest first. *)
Record World := mkWorld {
  page : Dom;
  windowVisible : bool;
  history : list Command
}.

(** Every effect of the frontend, as it is recorded in a run. *)
Inductive Event :=
| Invoked (cmd : Command) (rejected : option string)
| StatusSet (kind : StatusKind) (message : string)
| DetailsSet (message : string)
| SubtitleSet (text : string)
| DetailsHidden (hidden : bool)
| ActionsHidden (hidden : bool)
| RetryDisabled (disabled : bool)
| AboutBodySet (text : string)
| AboutShown.

(** The native side, as far as the page can tell: what each [invoke]
    answers, given the commands received before it.  A rejected promise
    is [inl e], and [Some e] for the commands that return nothing. *)
Record Backend := mkBackend {
  bootstrap_state_reply : list Command -> string + BootstrapState;
  about_info_reply : list Command -> string + AboutInfo;
  command_reply : Command -> list Command -> option string
}.

(** ** The monad of the frontend

    A computation takes the page state and yields a value or a thrown
    error, the new page state and the effects performed, oldest
    first. *)
Record Out (A : Type) := mkOut {
  res : string + A;
  world : World;
  events : list Event
}.
Arguments mkOut {A} _ _ _.
Arguments res {A} _.
Arguments world {A} _.
Arguments events {A} _.

Definition M (A : Type) : Type := World -> Out A.

Definition ret {A} (a : A) : M A :=
  fun w => mkOut (inr a) w [].

Definition throw {A} (e : string) : M A :=
  fun w => mkOut (inl e) w [].

Definition bind {A B} (m : M A) (k : A -> M B) : M B :=
  fun w =>
    match m w with
    | mkOut (inl e) w1 ev1 => mkOut (inl e) w1 ev1
    | mkOut (inr a) w1 ev1 =>
        match k a w1 with
        | mkOut r w2 ev2 => mkOut r w2 (ev1 ++ ev2)
        end
    end.

(** [try { body } catch (error) { handler }]. *)
Definition try_catch {A} (body : M A) (handler : string -> M A) : M A :=
  fun w =>
    match body w with
    | mkOut (inl e) w1 ev1 =>
        match handler e w1 with
        | mkOut r w2 ev2 => mkOut r w2 (ev1 ++ ev2)
        end
    | mkOut (inr a) w1 ev1 => mkOut (inr a) w1 ev1
    end.

Declare Scope js_scope.
Delimit Scope js_scope with js.
Notation "x <- c1 ;; c2" := (bind c1 (fun x => c2))
  (at level 100, c1 at next level, right associativity) : js_scope.
Notation "c1 ;; c2" := (bind c1 (fun _ => c2))
  (at level 100, right associativity) : js_scope.

(** One write to the DOM: the node changes and the write is recorded. *)
Definition write (f : Dom -> Dom) (e : Event) : M unit :=
  fun w =>
    mkOut (inr tt)
      {| page := f (page w); windowVisible := windowVisible w; history := history w |}
      [e].

Definition set_status (cls txt : string) (d : Dom) : Dom :=
  {| status_className := cls; status_textContent := txt;
     subtitle_textContent := subtitle_textContent d;
     details_textContent := details_textContent d;
     details_hidden := details_hidden d; actions_hidden := actions_hidden d;
     retry_disabled := retry_disabled d;
     aboutBody_textContent := aboutBody_textContent d;
     aboutDialog_open := aboutDialog_open d |}.

Definition set_subtitle (txt : string) (d : Dom) : Dom :=
  {| status_className := status_className d;
     status_textContent := status_textContent d;
     subtitle_textContent := txt;
     details_textContent := details_textContent d;
     details_hidden := details_hidden d; actions_hidden := actions_hidden d;
     retry_disabled := retry_disabled d;
     aboutBody_textContent := aboutBody_textContent d;
     aboutDialog_open := aboutDialog_open d |}.

Definition set_details (txt : string) (d : Dom) : Dom :=
  {| status_className := status_className d;
     status_textContent := status_textContent d;
     subtitle_textContent := subtitle_textContent d;
     details_textContent := txt;
     details_hidden := details_hidden d; actions_hidden := actions_hidden d;
     retry_disabled := retry_disabled d;
     aboutBody_textContent := aboutBody_textContent d;
     aboutDialog_open := aboutDialog_open d |}.

Definition set_details_hidden (b : bool) (d : Dom) : Dom :=
  {| status_className := status_className d;
     status_textContent := status_textContent d;
     subtitle_textContent := subtitle_textContent d;
     details_textContent := details_textContent d;
     details_hidden := b; actions_hidden := actions_hidden d;
     retry_disabled := retry_disabled d;
     aboutBody_textContent := aboutBody_textContent d;
     aboutDialog_open := aboutDialog_open d |}.

Definition set_actions_hidden (b : bool) (d : Dom) : Dom :=
  {| status_className := status_className d;
     status_textContent := status_textContent d;
     subtitle_textContent := subtitle_textContent d;
     details_textContent := details_textContent d;
     details_hidden := details_hidden d; actions_hidden := b;
     retry_disabled := retry_disabled d;
     aboutBody_textContent := aboutBody_textContent d;
     aboutDialog_open := aboutDialog_open d |}.

Definition set_retry_disabled (b : bool) (d : Dom) : Dom :=
  {| status_className := status_className d;
     status_textContent := status_textContent d;
     subtitle_textContent := subtitle_textContent d;
     details_textContent := details_textContent d;
     details_hidden := details_hidden d; actions_hidden := actions_hidden d;
     retry_disabled := b;
     aboutBody_textContent := aboutBody_textContent d;
     aboutDialog_open := aboutDialog_open d |}.

Definition set_aboutBody (txt : string) (d : Dom) : Dom :=
  {| status_className := status_className d;
     status_textContent := status_textContent d;
     subtitle_textContent := subtitle_textContent d;
     details_textContent := details_textContent d;
     details_hidden := details_hidden d; actions_hidden := actions_hidden d;
     retry_disabled := retry_disabled d;
     aboutBody_textContent := txt;
     aboutDialog_open := aboutDialog_open d |}.

Definition set_aboutDialog_open (b : bool) (d : Dom) : Dom :=
  {| status_className := status_className d;
     status_textContent := status_textContent d;
     subtitle_textContent := subtitle_textContent d;
     details_textContent := details_textContent d;
     details_hidden := details_hidden d; actions_hidden := actions_hidden d;
     retry_disabled := retry_disabled d;
     aboutBody_textContent := aboutBody_textContent d;
     aboutDialog_open := b |}.

(** [windowVisible = b]. *)
Definition set_windowVisible (b : bool) : M unit :=
  fun w =>
    mkOut (inr tt)
      {| page := page w; windowVisible := b; history := history w |} [].

Definition get_windowVisible : M bool :=
  fun w => mkOut (inr (windowVisible w)) w [].

(** ** The frontend, [src/main.ts] *)

Section Frontend.

Variable backend : Backend.

Local Open Scope js_scope.

(** [await invoke(cmd)] for a command that returns nothing: the native
    side receives the command and the promise resolves or rejects. *)
Definition invoke (cmd : Command) : M unit :=
  fun w =>
    let reply := command_reply backend cmd (history w) in
    mkOut (match reply with Some e => inl e | None => inr tt end)
      {| page := page w; windowVisible := windowVisible w;
         history := cmd :: history w |}
      [Invoked cmd reply].

(** [await invoke<BootstrapState>("bootstrap_state")]. *)
Definition invoke_bootstrap_state : M BootstrapState :=
  fun w =>
    let reply := bootstrap_state_reply backend (history w) in
    mkOut reply
      {| page := page w; windowVisible := windowVisible w;
         history := bootstrap_state :: history w |}
      [Invoked bootstrap_state
         (match reply with inl e => Some e | inr _ => None end)].

(** [await invoke<AboutInfo>("get_about_info")]. *)
Definition invoke_get_about_info : M AboutInfo :=
  fun w =>
    let reply := about_info_reply backend (history w) in
    mkOut reply
      {| page := page w; windowVisible := windowVisible w;
         history := get_about_info :: history w |}
      [Invoked get_about_info
         (match reply with inl e => Some e | inr _ => None end)].

Definition setStatus (kind : StatusKind) (message : string) : M unit :=
  write (set_status ("status " +:+ kind_name kind) message)
        (StatusSet kind message).

Definition setDetails (message : string) : M unit :=
  write (set_details message) (DetailsSet message).

Definition setLoaderMode : M unit :=
  write (set_details_hidden true) (DetailsHidden true) ;;
  write (set_actions_hidden true) (ActionsHidden true) ;;
  write (set_retry_disabled true) (RetryDisabled true).

Definition setErrorMode (message : string) : M unit :=
  setDetails message ;;
  write (set_details_hidden false) (DetailsHidden false) ;;
  write (set_actions_hidden false) (ActionsHidden false) ;;
  write (set_retry_disabled false) (RetryDisabled false).

Definition ensureMainWindowVisible : M unit :=
  visible <- get_windowVisible ;;
  if visible then ret tt
  else
    try_catch
      (invoke show_main_window ;;
       set_windowVisible true)
      (fun _ => ret tt).

(** The lines of the About dialog. *)
Definition about_lines (info : AboutInfo) : list string :=
  [ about_title info;
    "Version: " +:+ about_version info;
    "Target Host: " +:+ about_app_host info;
    "URL: " +:+ about_app_url info;
    "Web Build Hash: " +:+ nullish (about_web_build_hash info) "-";
    "Web Build Time: " +:+ nullish (about_web_build_time info) "-";
    "Required Build Hash: " +:+ nullish (about_required_web_build_hash info) "-";
    "Enforce Build Parity: " +:+
      (if about_enforce_web_build info then "true" else "false") ]
  ++ (if truthy (about_web_build_error info)
      then ["Build Check Error: " +:+ nullish (about_web_build_error info) ""]
      else []).

Definition showAboutDialog : M unit :=
  try_catch
    (info <- invoke_get_about_info ;;
     write (set_aboutBody (String.concat LF (about_lines info)))
           (AboutBodySet (String.concat LF (about_lines info))))
    (fun err =>
       write (set_aboutBody ("About information unavailable: " +:+ String_ err))
             (AboutBodySet ("About information unavailable: " +:+ String_ err))) ;;
  write (set_aboutDialog_open true) AboutShown.

Definition openRemoteApp : M unit :=
  setStatus loading "Opening remote app..." ;;
  setLoaderMode ;;
  try_catch
    (invoke launch_app)
    (fun err =>
       ensureMainWindowVisible ;;
       setStatus error "Could not open the app." ;;
       setErrorMode (String_ err)).

Definition retryConnection : M unit :=
  setStatus loading "Retrying connection..." ;;
  setLoaderMode ;;
  try_catch
    (invoke retry_connect)
    (fun err =>
       ensureMainWindowVisible ;;
       setStatus error "Server is still unreachable." ;;
       setErrorMode (String_ err)).

(** The text of the subtitle line. *)
Definition subtitle_of (state : BootstrapState) : string :=
  "Version " +:+ version state +:+ " • Web " +:+
  nullish (web_build_hash state) "-".

(** [message] of the parity branch of [bootstrap]. *)
Definition parity_message (state : BootstrapState) : string :=
  nullish (build_parity_error state)
    "Server build is older than required for this CRA Client.".

(** [withHints] of the parity branch of [bootstrap]. *)
Definition withHints (state : BootstrapState) : string :=
  parity_message state +:+ LF +:+
  "Connected build: " +:+ nullish (web_build_hash state) "-" +:+ LF +:+
  "Required build: " +:+ nullish (required_web_build_hash state) "-".

(** The dispatch of [bootstrap] on the state it received: the chain of
    [if]s from the configuration test to the unreachable screen.  A
    [return] ends the branch it stands in. *)
Definition dispatch (state : BootstrapState) : M unit :=
  if negb (ready state) || truthy (config_error state) then
    ensureMainWindowVisible ;;
    setStatus error "Configuration error" ;;
    setErrorMode (nullish (config_error state)
                    "Runtime configuration is incomplete.") ;;
    write (set_retry_disabled true) (RetryDisabled true)
  else if reachable state then
    (if negb (build_parity_ok state) then
       if enforce_web_build state then
         ensureMainWindowVisible ;;
         setStatus error "Build parity check failed" ;;
         setErrorMode (withHints state)
       else
         setStatus warning "Build parity warning" ;;
         setDetails (withHints state) ;;
         write (set_details_hidden false) (DetailsHidden false) ;;
         openRemoteApp
     else
       openRemoteApp)
  else
    ensureMainWindowVisible ;;
    setStatus error "Server unreachable" ;;
    setErrorMode (nullish (reachability_error state)
                    "The server did not respond.").

Definition bootstrap : M unit :=
  setStatus loading "Checking configuration..." ;;
  setLoaderMode ;;
  try_catch
    (state <- invoke_bootstrap_state ;;
     write (set_subtitle (subtitle_of state)) (SubtitleSet (subtitle_of state)) ;;
     dispatch state)
    (fun err =>
       ensureMainWindowVisible ;;
       setStatus error "Bootstrap failed" ;;
       setErrorMode (String_ err)).

End Frontend.

(** ** The frontend before the parity gate

    The earlier [main.ts] of the repository: the same page without the
    parity fields, the [hidden] classes and [windowVisible].  Its state
    type has the first ten fields of [BootstrapState]; run on a state of
    the current type it reads those and nothing else. *)

Module Legacy.
Section Frontend.

Variable backend : Backend.

Local Open Scope js_scope.

Definition setStatus (kind : StatusKind) (message : string) : M unit :=
  write (set_status ("status " +:+ kind_name kind) message)
        (StatusSet kind message).

Definition setDetails (message : string) : M unit :=
  write (set_details message) (DetailsSet message).

Definition showAboutDialog : M unit :=
  try_catch
    (info <- invoke_get_about_info backend ;;
     write (set_aboutBody
              (about_title info +:+ LF +:+
               "Version: " +:+ about_version info +:+ LF +:+
               "Target Host: " +:+ about_app_host info +:+ LF +:+
               "URL: " +:+ about_app_url info))
           (AboutBodySet
              (about_title info +:+ LF +:+
               "Version: " +:+ about_version info +:+ LF +:+
               "Target Host: " +:+ about_app_host info +:+ LF +:+
               "URL: " +:+ about_app_url info)))
    (fun err =>
       write (set_aboutBody ("About information unavailable: " +:+ String_ err))
             (AboutBodySet ("About information unavailable: " +:+ String_ err))) ;;
  write (set_aboutDialog_open true) AboutShown.

Definition openRemoteApp : M unit :=
  setStatus loading "Opening remote app..." ;;
  setDetails "Please wait while the desktop client switches to the web application." ;;
  write (set_retry_disabled true) (RetryDisabled true) ;;
  try_catch
    (invoke backend launch_app)
    (fun err =>
       setStatus error "Could not open the app." ;;
       setDetails (String_ err) ;;
       write (set_retry_disabled false) (RetryDisabled false)).

Definition retryConnection : M unit :=
  setStatus loading "Retrying connection..." ;;
  setDetails "Attempting to reach the server again." ;;
  write (set_retry_disabled true) (RetryDisabled true) ;;
  try_catch
    (invoke backend retry_connect)
    (fun err =>
       setStatus error "Server is still unreachable." ;;
       setDetails (String_ err) ;;
       write (set_retry_disabled false) (RetryDisabled false)).

(** The dispatch of the earlier [bootstrap] on the state it received. *)
Definition dispatch (state : BootstrapState) : M unit :=
  if negb (ready state) || truthy (config_error state) then
    setStatus error "Configuration error" ;;
    setDetails (nullish (config_error state)
                  "Runtime configuration is incomplete.") ;;
    write (set_retry_disabled true) (RetryDisabled true)
  else if reachable state then
    openRemoteApp
  else
    setStatus error "Server unreachable" ;;
    setDetails (nullish (reachability_error state)
                  "The server did not respond.") ;;
    write (set_retry_disabled false) (RetryDisabled false).

Definition bootstrap : M unit :=
  setStatus loading "Checking configuration..." ;;
  setDetails "Loading runtime settings and validating connectivity." ;;
  try_catch
    (state <- invoke_bootstrap_state backend ;;
     write (set_subtitle ("Version " +:+ version state))
           (SubtitleSet ("Version " +:+ version state)) ;;
     dispatch state)
    (fun err =>
       setStatus error "Bootstrap failed" ;;
       setDetails (String_ err) ;;
       write (set_retry_disabled false) (RetryDisabled false)).

End Frontend.
End Legacy.

(** ** The page session

    The module body of [main.ts]: the page as its template builds it,
    the first [bootstrap], and the two click listeners.  A handler runs
    to its end before the next click is served: the Retry button is
    disabled while a handler that may re-enable it is in flight, and a
    disabled button fires no click. *)

Definition initial_page : Dom :=
  {| status_className := "status loading";
     status_textContent := "Checking server reachability...";
     subtitle_textContent := "Connecting to server...";
     details_textContent := "";
     details_hidden := true;
     actions_hidden := true;
     retry_disabled := true;
     aboutBody_textContent := "";
     aboutDialog_open := false |}.

Definition initial_world : World :=
  {| page := initial_page; windowVisible := false; history := [] |}.

(** The two buttons with a click listener. *)
Inductive Click := ClickRetry | ClickAbout.

(** The listener of a button; a click on the disabled Retry does
    nothing. *)
Definition on_click (backend : Backend) (c : Click) : M unit :=
  match c with
  | ClickRetry =>
      fun w => if retry_disabled (page w) then ret tt w
               else retryConnection backend w
  | ClickAbout => showAboutDialog backend
  end.

(** The clicks of a session, served in order. *)
Fixpoint serve (backend : Backend) (clicks : list Click) : M unit :=
  match clicks with
  | [] => ret tt
  | c :: rest => bind (on_click backend c) (fun _ => serve backend rest)
  end.

(** A page session: [void bootstrap()] on the fresh page, then the
    clicks. *)
Definition session (backend : Backend) (clicks : list Click) : Out unit :=
  bind (bootstrap backend) (fun _ => serve backend clicks) initial_world.

(** ** Reading a run *)

(** The replies the native side gave to [cmd] in a run, oldest first. *)
Fixpoint replies_to (cmd : Command) (evs : list Event) : list (option string) :=
  match evs with
  | [] => []
  | Invoked c r :: rest =>
      if decide (c = cmd) then r :: replies_to cmd rest else replies_to cmd rest
  | _ :: rest => replies_to cmd rest
  end.

(** How often [cmd] was invoked and resolved. *)
Definition successes (cmd : Command) (evs : list Event) : nat :=
  length (filter (fun r => r = None) (replies_to cmd evs)).

(** Whether an effect shows a warning or an error status. *)
Definition alarming (e : Event) : bool :=
  match e with
  | StatusSet warning _ | StatusSet error _ => true
  | _ => false
  end.



(** A run accounts for the main window: each resolved
    [show_main_window] turns [windowVisible] from [false] to [true], and
    nothing else changes it. *)
Definition accounted {A} (m : M A) : Prop :=
  forall w,
    successes show_main_window (events (m w)) + Nat.b2n (windowVisible w)
    = Nat.b2n (windowVisible (world (m w))).

(** What a bootstrap attempt leaves for the user: the status line, the
    error text if the status is an error, whether Retry is disabled, and
    the replies to [launch_app]. *)
Record Screen := mkScreen {
  screen_status : string * string;
  screen_error : option string;
  screen_retry_disabled : bool;
  screen_launches : list (option string)
}.

(** The screen a run ends on. *)
Definition screen_of (o : Out unit) : Screen :=
  let d := page (world o) in
  {| screen_status := (status_className d, status_textContent d);
     screen_error :=
       if decide (status_className d = "status error")
       then Some (details_textContent d) else None;
     screen_retry_disabled := retry_disabled d;
     screen_launches := replies_to launch_app (events o) |}.

(** The screen both frontends are expected to leave on a state that
    passes parity or fails configuration or reachability. *)
Definition expected_screen (st : BootstrapState) (launch_reply : option string)
    : Screen :=
  if negb (ready st) || truthy (config_error st) then
    {| screen_status := ("status error", "Configuration error");
       screen_error :=
         Some (nullish (config_error st) "Runtime configuration is incomplete.");
       screen_retry_disabled := true;
       screen_launches := [] |}
  else if reachable st then
    match launch_reply with
    | None =>
        {| screen_status := ("status loading", "Opening remote app...");
           screen_error := None;
           screen_retry_disabled := true;
           screen_launches := [None] |}
    | Some e =>
        {| screen_status := ("status error", "Could not open the app.");
           screen_error := Some e;
           screen_retry_disabled := false;
           screen_launches := [Some e] |}
    end
  else
    {| screen_status := ("status error", "Server unreachable");
       screen_error :=
         Some (nullish (reachability_error st) "The server did not respond.");
       screen_retry_disabled := false;
       screen_launches := [] |}.

(** ** The launch gating rules of the native side

    The native (Rust) half of the wrapper is not among the sources; the
    three components below follow the specification. *)

(** Modelled from the spec: case-insensitive comparison, as ASCII
    lower-casing of host names and hex hashes. *)
Definition ascii_lower (c : Ascii.ascii) : Ascii.ascii :=
  let n := Ascii.nat_of_ascii c in
  if (65 <=? n) && (n <=? 90) then Ascii.ascii_of_nat (n + 32) else c.

(** Modelled from the spec: a string compared case-insensitively is
    compared lower-cased. *)
Fixpoint to_lowercase (s : string) : string :=
  match s with
  | EmptyString => EmptyString
  | String c rest => String (ascii_lower c) (to_lowercase rest)
  end.

Module BuildParityChecker.






End BuildParityChecker.

Module NavigationGuard.

(** Modelled from the spec: a navigation or request of the hosted
    window, as the parsed URL the guard sees. *)
Record Request := mkRequest {
  scheme : string;
  host : string;
  port : option Z;
  path : string
}.

(** Modelled from the spec: the guard decides [Allow | Block]. *)
Inductive Decision := Allow | Block.

(** Modelled from the spec: the guard's decision of section 4.5, which
    is missing: the request's host against [allowed_hosts], exact host
    match, case-insensitive, port ignored. *)
Definition decide_request (allowed_hosts : gset string) (req : Request) : Decision :=
  if decide (to_lowercase (host req) ∈ (set_map to_lowercase allowed_hosts : gset string))
  then Allow else Block.

(** Modelled from the spec: the hosted window, the page it shows and
    what was handed to an external browser. *)
Record Window := mkWindow {
  current : Request;
  external : list Request
}.

(** Modelled from the spec: the interception of one request (section
    4.5).  [Block] keeps the window on its current page and redirects
    nothing externally. *)
Definition navigate (allowed_hosts : gset string) (win : Window) (req : Request) : Window :=
  match decide_request allowed_hosts req with
  | Allow => {| current := req; external := external win |}
  | Block => win
  end.

End NavigationGuard.

Module ConfigResolver.

(** Modelled from the spec: a [client.env] location (section 4.1): the
    file is absent, cannot be parsed, or yields its key/value lines. *)
Inductive ConfigFile :=
| Absent
| Unreadable
| Lines (kv : gmap string string).

(** Modelled from the spec: the four ranked origins of section 3.  The
    process environment is given as the mapping its namespaced
    variables yield. *)
Record ConfigSources := mkConfigSources {
  process_env : gmap string string;
  cwd_file : ConfigFile;
  exe_file : ConfigFile;
  appdata_file : ConfigFile
}.

(** Modelled from the spec: the compiled-in default payload written on
    first run, as the README lists it. *)
Definition default_payload : gmap string string :=
  list_to_map
    [ ("APP_URL", "http://192.168.50.55:3000");
      ("ALLOWED_HOSTS", "192.168.50.55");
      ("WINDOW_TITLE", "CRA Client");
      ("WINDOW_WIDTH", "1280");
      ("WINDOW_HEIGHT", "800") ].

(** Modelled from the spec: the known-stale historical default. *)
Definition stale_app_url : string := "https://192.168.50.55".

(** Modelled from the spec: the one-time migration of section 4.1. *)
Definition migrate (kv : gmap string string) : gmap string string :=
  if decide (kv !! "APP_URL" = Some stale_app_url)
  then <["APP_URL" := "http://192.168.50.55:3000"]> kv
  else kv.

(** Modelled from the spec: the per-user file as resolution reads it:
    synthesized when absent, migrated when present. *)
Definition prepare_appdata (f : ConfigFile) : ConfigFile :=
  match f with
  | Absent => Lines default_payload
  | Unreadable => Unreadable
  | Lines kv => Lines (migrate kv)
  end.

(** Modelled from the spec: the partial mapping a file yields; an
    unreadable source is treated as empty. *)
Definition yield (f : ConfigFile) : gmap string string :=
  match f with
  | Lines kv => kv
  | Absent | Unreadable => ∅
  end.

(** Modelled from the spec: the sources in fixed precedence order. *)
Definition ranked (s : ConfigSources) : list (gmap string string) :=
  [ process_env s; yield (cwd_file s); yield (exe_file s);
    yield (prepare_appdata (appdata_file s)) ].

(** Modelled from the spec: the walk of section 4.1, which is missing:
    iterate the sources in order; each key not yet resolved takes the
    value of the source at hand, if that source defines it. *)
Definition walk (sources : list (gmap string string)) : gmap string string :=
  foldl (fun resolved source => resolved ∪ source) ∅ sources.

(** Modelled from the spec: [resolve()] of section 4.1, up to
    validation: the walk over the four ranked sources. *)
Definition resolve (s : ConfigSources) : gmap string string :=
  walk (ranked s).

(** Modelled from the spec: the highest-precedence source that defines
    [key], as its rank (counted from [rank]) and the value it gives. *)
Fixpoint first_defining (key : string) (rank : nat)
    (sources : list (gmap string string)) : option (nat * string) :=
  match sources with
  | [] => None
  | source :: rest =>
      match source !! key with
      | Some v => Some (rank, v)
      | None => first_defining key (S rank) rest
      end
  end.

End ConfigResolver.

(** ** Sample inputs *)

(** A state of the deployment the README describes, with the fields the
    dispatch reads left open. *)
Definition sample_state (is_ready : bool) (cfg_error : option string)
    (is_reachable parity_ok enforce : bool) : BootstrapState :=
  {| ready := is_ready;
     config_error := cfg_error;
     app_url := Some "http://192.168.50.55:3000";
     app_host := Some "192.168.50.55";
     window_title := "CRA Client";
     window_width := 1280;
     window_height := 800;
     version := "0.1.14";
     reachable := is_reachable;
     reachability_error := None;
     web_build_hash := Some "1111111";
     web_build_time := None;
     required_web_build_hash := Some "aacb669";
     build_parity_ok := parity_ok;
     build_parity_error := None;
     enforce_web_build := enforce |}.

(** A native side that answers [bootstrap_state] with [st] and resolves
    every other command. *)
Definition sample_backend (st : BootstrapState) : Backend :=
  {| bootstrap_state_reply := fun _ => inr st;
     about_info_reply := fun _ => inl "about unavailable";
     command_reply := fun _ _ => None |}.

(** ** Reading a handler *)

(** The handler always returns normally: its promise never rejects. *)
Definition returns (m : M unit) : Prop :=
  forall w, res (m w) = inr tt.

(** How often [cmd] was invoked in a run, whatever the answer. *)
Definition invocations (cmd : Command) (evs : list Event) : nat :=
  length (replies_to cmd evs).

(** Retry can be pressed only on an error screen: when the button is
    enabled, the actions and the details are shown and the status is an
    error. *)
Definition retry_guarded (d : Dom) : Prop :=
  retry_disabled d = false ->
  actions_hidden d = false
  /\ details_hidden d = false
  /\ status_className d = "status error".

(** The run ends with the main window shown, or tried to show it and
    was refused. *)
Definition window_attempted (o : Out unit) : Prop :=
  windowVisible (world o) = true
  \/ exists cause, In (Invoked show_main_window (Some cause)) (events o).

(** A native side on which every [retry_connect] is rejected with
    [cause] and [bootstrap_state] answers [st]. *)
Definition unreachable_backend (st : BootstrapState) (cause : string) : Backend :=
  {| bootstrap_state_reply := fun _ => inr st;
     about_info_reply := fun _ => inl "about unavailable";
     command_reply := fun cmd _ =>
       match cmd with
       | retry_connect => Some cause
       | _ => None
       end |}.

(** A native side that rejects [show_main_window] and [launch_app] and
    answers [bootstrap_state] with [st]. *)
Definition stubborn_backend (st : BootstrapState) : Backend :=
  {| bootstrap_state_reply := fun _ => inr st;
     about_info_reply := fun _ => inl "about unavailable";
     command_reply := fun cmd _ =>
       match cmd with
       | show_main_window => Some "window unavailable"
       | launch_app => Some "navigation refused"
       | _ => None
       end |}.

(** A native side whose [bootstrap_state] is rejected with [cause]. *)
Definition broken_backend (cause : string) : Backend :=
  {| bootstrap_state_reply := fun _ => inl cause;
     about_info_reply := fun _ => inl "about unavailable";
     command_reply := fun _ _ => None |}.

(** An About record of the deployment the README describes. *)
Definition sample_about (build_error : option string) : AboutInfo :=
  {| about_title := "CRA Client";
     about_version := "0.1.14";
     about_app_host := "192.168.50.55";
     about_app_url := "http://192.168.50.55:3000";
     about_required_web_build_hash := Some "aacb669";
     about_enforce_web_build := true;
     about_web_build_hash := Some "aacb669123";
     about_web_build_time := None;
     about_web_build_error := build_error |}.

(** A native side that answers [get_about_info] with [info]. *)
Definition about_backend (info : AboutInfo) : Backend :=
  {| bootstrap_state_reply := fun _ => inl "not asked";
     about_info_reply := fun _ => inr info;
     command_reply := fun _ _ => None |}.

(** ** The page template and the element handles

    The start of the module body of [main.ts]: the [#app] root is looked
    up, its content is replaced by the template, and the eight elements
    the handlers write to are looked up by id.

    A tree of [Node]s is the tree of HTML elements of a document, each
    element with its local name and its attributes as the DOM holds
    them.  What the browser does is modelled where it is plain: for an
    HTML document outside quirks mode (ids compare exactly, [innerHTML]
    goes through the HTML parser) whose [#app] root is a [div], the
    type the source gives it, with no [form] among its ancestors.  There the fragment parser reads the template in body
    mode with no form pointer and builds the elements of [template];
    every other host is left outside the model, not guessed at.  The
    white space between the elements of the template is left out, as
    nothing reads it. *)

#[local] Unset Elimination Schemes.
Inductive Node :=
| Text (data : string)
| Element (tag : string) (attrs : list (string * string)) (children : list Node).
#[local] Set Elimination Schemes.

(** The kinds of host document: an HTML document in no-quirks or
    limited-quirks mode, an HTML document in quirks mode (where id
    selectors ignore letter case), an XML document (where [innerHTML]
    goes through the XML parser). *)
Inductive DocumentKind := HtmlStandards | HtmlQuirks | XmlDocument.

(** A host document: its kind and its root element. *)
Record Document := mkDocument {
  kind : DocumentKind;
  root : Node
}.

(** [getAttribute(name)]. *)
Fixpoint attr (name : string) (attrs : list (string * string)) : option string :=
  match attrs with
  | [] => None
  | (n, v) :: rest => if decide (n = name) then Some v else attr name rest
  end.

(** The first result, in order, of [f] over [l]. *)
Definition first_some {A B} (f : A -> option B) : list A -> option B :=
  fix go (l : list A) : option B :=
    match l with
    | [] => None
    | x :: rest =>
        match f x with
        | Some y => Some y
        | None => go rest
        end
    end.

(** [querySelector("#" + id)] from [n] outside quirks mode: the
    first element in document order whose id is [id]. *)
Fixpoint find_id (id : string) (n : Node) : option Node :=
  match n with
  | Text _ => None
  | Element tag attrs children =>
      if decide (attr "id" attrs = Some id) then Some n
      else first_some (find_id id) children
  end.

(** The selectors the source uses: all select by id. *)
Inductive Selector := ById (id : string).

Definition selector_text (selector : Selector) : string :=
  match selector with
  | ById id => "#" +:+ id
  end.

(** [document.querySelector(selector)] over the tree of a document
    outside quirks mode. *)
Definition querySelector (tree : Node) (selector : Selector) : option Node :=
  match selector with
  | ById id => find_id id tree
  end.


(** The outcome of replacing an element's content: no such element, an
    element the model does not cover, or the new tree. *)
Inductive Replacement (A : Type) :=
| NoTarget
| NotModelled
| Replaced (a : A).
Arguments NoTarget {A}.
Arguments NotModelled {A}.
Arguments Replaced {A} _.

(** [f] applied to the first element of [l] it has an answer for. *)
Definition replace_first {A} (f : A -> Replacement A) : list A -> Replacement (list A) :=
  fix go (l : list A) : Replacement (list A) :=
    match l with
    | [] => NoTarget
    | x :: rest =>
        match f x with
        | Replaced y => Replaced (y :: rest)
        | NotModelled => NotModelled
        | NoTarget =>
            match go rest with
            | Replaced rest' => Replaced (x :: rest')
            | NotModelled => NotModelled
            | NoTarget => NoTarget
            end
        end
    end.

(** [n] with the content of its first element of id [id] replaced by
    the elements [html], when that element is a [div] with no [form]
    ancestor. *)
Fixpoint replace_content (id : string) (html : list Node) (in_form : bool)
    (n : Node) : Replacement Node :=
  match n with
  | Text _ => NoTarget
  | Element tag attrs children =>
      if decide (attr "id" attrs = Some id) then
        if bool_decide (tag = "div") && negb in_form
        then Replaced (Element tag attrs html)
        else NotModelled
      else
        match replace_first
                (replace_content id html (in_form || bool_decide (tag = "form")))
                children with
        | Replaced children' => Replaced (Element tag attrs children')
        | NotModelled => NotModelled
        | NoTarget => NoTarget
        end
  end.

(** [element.innerHTML = ...] for the element [querySelector] finds
    under [selector], as seen from the root of the tree; [html] is what
    the fragment parser builds in a [div] outside any form. *)
Definition set_innerHTML (selector : Selector) (html : list Node) (tree : Node)
    : Replacement Node :=
  match selector with
  | ById id => replace_content id html false tree
  end.

(** The template literal assigned to [app.innerHTML], as parsed in a
    [div] outside any form. *)
Definition template : list Node :=
  [ Element "main" [("class", "shell")]
      [ Element "section" [("class", "startup-card")]
          [ Element "div" [("class", "spinner"); ("aria-hidden", "true")] [];
            Element "h1" [] [Text "CRA"];
            Element "p" [("id", "subtitle"); ("class", "muted")]
              [Text "Connecting to server..."];
            Element "div" [("id", "status"); ("class", "status loading")]
              [Text "Checking server reachability..."];
            Element "p" [("id", "details"); ("class", "details hidden")] [];
            Element "div" [("id", "actions"); ("class", "actions hidden")]
              [ Element "button"
                  [("id", "retry"); ("type", "button"); ("disabled", "")]
                  [Text "Retry"];
                Element "button" [("id", "about"); ("type", "button")]
                  [Text "About"] ] ];
        Element "dialog" [("id", "aboutDialog")]
          [ Element "form" [("method", "dialog")]
              [ Element "h2" [] [Text "About CRA"];
                Element "p" [("id", "aboutBody")] [];
                Element "div" [("class", "actions")]
                  [ Element "button" [("type", "submit")] [Text "Close"] ] ] ] ] ].

(** [requiredElement(selector)]: the element, or the thrown message. *)
Definition requiredElement (tree : Node) (selector : Selector) : string + Node :=
  match querySelector tree selector with
  | Some element => inr element
  | None => inl ("Missing required DOM element: " +:+ selector_text selector)
  end.

(** The element constants of the module. *)
Record Handles := mkHandles {
  h_status : Node;
  h_subtitle : Node;
  h_details : Node;
  h_actions : Node;
  h_retry : Node;
  h_about : Node;
  h_aboutDialog : Node;
  h_aboutBody : Node
}.

(** Sequencing of statements that may throw. *)
Definition and_then {A B} (r : string + A) (k : A -> string + B) : string + B :=
  match r with
  | inl e => inl e
  | inr a => k a
  end.

(** The eight [requiredElement] constants, in the order of the
    source. *)
Definition handles_of (tree : Node) : string + Handles :=
  and_then (requiredElement tree (ById "status")) (fun status =>
  and_then (requiredElement tree (ById "subtitle")) (fun subtitle =>
  and_then (requiredElement tree (ById "details")) (fun details =>
  and_then (requiredElement tree (ById "actions")) (fun actions =>
  and_then (requiredElement tree (ById "retry")) (fun retry =>
  and_then (requiredElement tree (ById "about")) (fun about =>
  and_then (requiredElement tree (ById "aboutDialog")) (fun aboutDialog =>
  and_then (requiredElement tree (ById "aboutBody")) (fun aboutBody =>
  inr {| h_status := status; h_subtitle := subtitle;
         h_details := details; h_actions := actions;
         h_retry := retry; h_about := about;
         h_aboutDialog := aboutDialog;
         h_aboutBody := aboutBody |})))))))).

(** How the module body fares up to the element constants: it throws,
    it ends with the template installed and the handles taken, or the
    host is one the model does not cover. *)
Inductive Mounting :=
| Thrown (message : string)
| Mounted (mounted : Node) (handles : Handles)
| OutsideModel.

Definition mount (document : Document) : Mounting :=
  match kind document with
  | HtmlStandards =>
      match querySelector (root document) (ById "app") with
      | None => Thrown "App root not found"
      | Some _ =>
          match set_innerHTML (ById "app") template (root document) with
          | Replaced mounted =>
              match handles_of mounted with
              | inl message => Thrown message
              | inr handles => Mounted mounted handles
              end
          | NotModelled | NoTarget => OutsideModel
          end
      end
  | HtmlQuirks | XmlDocument => OutsideModel
  end.











(** A host page whose [#app] root is a [textarea], which the model
    does not cover. *)
Definition textarea_document : Document :=
  {| kind := HtmlStandards;
     root :=
       Element "html" []
         [ Element "body" [] [Element "textarea" [("id", "app")] []] ] |}.

(** ** The packaging script

    [scripts/package-windows.ps1] copies the newest NSIS installer to a
    name fixed by the version and writes its SHA-256 beside it.  The
    two strings it builds are modelled; the file operations are not. *)

Module Packaging.

(** ["CRA-Client-$Version-windows-x64.exe"]. *)
Definition artifactName (Version : string) : string :=
  "CRA-Client-" +:+ Version +:+ "-windows-x64.exe".

(** ["$hash  $artifactName"], the line written to the [.sha256] file. *)
Definition sha256_line (hash name : string) : string :=
  hash +:+ "  " +:+ name.

End Packaging.

(** * Properties of the bootstrap dispatch *)

(** Unfolds the frontend down to the monad's matches. *)
Ltac unfold_frontend :=
  unfold bootstrap, dispatch, openRemoteApp, retryConnection,
    ensureMainWindowVisible, setErrorMode, setLoaderMode, setStatus,
    setDetails, invoke_bootstrap_state, invoke, get_windowVisible,
    set_windowVisible, write, try_catch, bind, ret.

Ltac unfold_legacy :=
  unfold Legacy.bootstrap, Legacy.dispatch, Legacy.openRemoteApp,
    Legacy.setStatus, Legacy.setDetails, invoke_bootstrap_state, invoke,
    write, try_catch, bind, ret.

(** Splits on what the native side answers to [cmd]. *)
Ltac split_on_reply cmd :=
  match goal with
  | |- context [command_reply ?b cmd ?h] =>
      destruct (command_reply b cmd h) eqn:?; cbn
  end.

(** Splits on whether the window is already shown, and if it is not, on
    the answer to [show_main_window]. *)
Ltac split_on_window w :=
  destruct (windowVisible w) eqn:?; cbn; try split_on_reply show_main_window.

Section BootstrapDispatch.

Variable backend : Backend.

Lemma ensureMainWindowVisible_returns w :
  res (ensureMainWindowVisible backend w) = inr tt.
Proof.
  unfold_frontend. cbn. split_on_window w; reflexivity.
Qed.

(** C7. When the state is ready, carries no configuration error, is
    reachable and reports parity, [bootstrap] invokes [launch_app], and
    nothing it does before that sets a warning or an error status or
    invokes [launch_app]. *)
Theorem bootstrap_parity_ok_launches_directly (w : World) (st : BootstrapState) :
  bootstrap_state_reply backend (history w) = inr st ->
  ready st = true ->
  config_error st = None ->
  reachable st = true ->
  build_parity_ok st = true ->
  exists before after,
    events (bootstrap backend w)
    = before
      ++ Invoked launch_app
           (command_reply backend launch_app (bootstrap_state :: history w))
      :: after
    /\ forallb (fun e => negb (alarming e)) before = true
    /\ replies_to launch_app before = []
    /\ res (bootstrap backend w) = inr tt.
Proof.
  intros Hreply Hready Hcfg Hreach Hok.
  exists [ StatusSet loading "Checking configuration...";
           DetailsHidden true; ActionsHidden true; RetryDisabled true;
           Invoked bootstrap_state None; SubtitleSet (subtitle_of st);
           StatusSet loading "Opening remote app...";
           DetailsHidden true; ActionsHidden true; RetryDisabled true ].
  unfold_frontend. cbn. rewrite Hreply. cbn.
  rewrite Hready, Hcfg, Hreach, Hok. cbn.
  split_on_reply launch_app.
  - split_on_window w; eexists; repeat split; reflexivity.
  - exists []. repeat split; reflexivity.
Qed.


(** C1. When the state is ready, carries no configuration error, is
    reachable and fails parity, [enforce_web_build] decides.  If it is
    set, [bootstrap] ends on the error screen "Build parity check
    failed" with the hinted message shown, the actions shown and Retry
    enabled, and [launch_app] is not invoked.  If it is not set,
    [bootstrap] sets the warning status, writes the hinted message into
    the details and unhides them, then switches to loader mode and
    invokes [launch_app]; nothing before the warning invokes
    [launch_app]. *)
Theorem bootstrap_parity_mismatch (w : World) (st : BootstrapState) :
  bootstrap_state_reply backend (history w) = inr st ->
  ready st = true ->
  config_error st = None ->
  reachable st = true ->
  build_parity_ok st = false ->
  (enforce_web_build st = true ->
     let o := bootstrap backend w in
     res o = inr tt
     /\ status_className (page (world o)) = "status error"
     /\ status_textContent (page (world o)) = "Build parity check failed"
     /\ details_textContent (page (world o)) = withHints st
     /\ details_hidden (page (world o)) = false
     /\ actions_hidden (page (world o)) = false
     /\ retry_disabled (page (world o)) = false
     /\ replies_to launch_app (events o) = [])
  /\ (enforce_web_build st = false ->
     exists before after,
       events (bootstrap backend w)
       = before
         ++ [ StatusSet warning "Build parity warning";
              DetailsSet (withHints st);
              DetailsHidden false ]
         ++ [ StatusSet loading "Opening remote app...";
              DetailsHidden true; ActionsHidden true; RetryDisabled true ]
         ++ Invoked launch_app
              (command_reply backend launch_app (bootstrap_state :: history w))
         :: after
       /\ replies_to launch_app before = []
       /\ res (bootstrap backend w) = inr tt).
Proof.
  intros Hreply Hready Hcfg Hreach Hok. split; intros Henf.
  - unfold_frontend. cbn. rewrite Hreply. cbn.
    rewrite Hready, Hcfg, Hreach, Hok, Henf. cbn.
    split_on_window w; repeat split; reflexivity.
  - exists [ StatusSet loading "Checking configuration...";
             DetailsHidden true; ActionsHidden true; RetryDisabled true;
             Invoked bootstrap_state None; SubtitleSet (subtitle_of st) ].
    unfold_frontend. cbn. rewrite Hreply. cbn.
    rewrite Hready, Hcfg, Hreach, Hok, Henf. cbn.
    split_on_reply launch_app.
    + split_on_window w; eexists; repeat split; reflexivity.
    + exists []. repeat split; reflexivity.
Qed.

(** C3, amended. When the state is not ready or its configuration error
    is a non-empty string, [bootstrap] ends on the error screen
    "Configuration error" showing that error (or the default text when
    it is [null]), with the actions shown and Retry disabled, and
    [launch_app] is not invoked. *)
Theorem bootstrap_config_error_is_terminal (w : World) (st : BootstrapState) :
  bootstrap_state_reply backend (history w) = inr st ->
  ready st = false \/ truthy (config_error st) = true ->
  let o := bootstrap backend w in
  res o = inr tt
  /\ status_className (page (world o)) = "status error"
  /\ status_textContent (page (world o)) = "Configuration error"
  /\ details_textContent (page (world o))
     = match config_error st with
       | Some e => e
       | None => "Runtime configuration is incomplete."
       end
  /\ details_hidden (page (world o)) = false
  /\ actions_hidden (page (world o)) = false
  /\ retry_disabled (page (world o)) = true
  /\ replies_to launch_app (events o) = [].
Proof.
  intros Hreply Hfail.
  assert (Hgate : negb (ready st) || truthy (config_error st) = true).
  { destruct Hfail as [H | H]; rewrite H; [reflexivity | apply orb_true_r]. }
  unfold_frontend. cbn. rewrite Hreply. cbn. rewrite Hgate. cbn.
  split_on_window w; repeat split; reflexivity.
Qed.

(** The dispatch of an unreachable state reads [reachability_error] and
    nothing else of the state. *)
Lemma dispatch_unreachable (w : World) (st : BootstrapState) :
  ready st = true ->
  config_error st = None ->
  reachable st = false ->
  dispatch backend st w
  = bind (ensureMainWindowVisible backend)
      (fun _ =>
         bind (setStatus error "Server unreachable")
           (fun _ =>
              setErrorMode
                (nullish (reachability_error st) "The server did not respond.")))
      w.
Proof.
  intros Hready Hcfg Hreach. unfold dispatch.
  rewrite Hready, Hcfg, Hreach. reflexivity.
Qed.

(** C4. When the state is ready, carries no configuration error and is
    not reachable, [bootstrap] ends on the error screen "Server
    unreachable" showing [reachability_error] (or the default text),
    with the actions shown and Retry enabled, and [launch_app] is not
    invoked; and the dispatch of such a state is the same for any other
    such state with the same [reachability_error], whatever the parity
    fields of the two are. *)
Theorem bootstrap_unreachable_ignores_parity (w : World) (st : BootstrapState) :
  bootstrap_state_reply backend (history w) = inr st ->
  ready st = true ->
  config_error st = None ->
  reachable st = false ->
  (let o := bootstrap backend w in
   res o = inr tt
   /\ status_className (page (world o)) = "status error"
   /\ status_textContent (page (world o)) = "Server unreachable"
   /\ details_textContent (page (world o))
      = match reachability_error st with
        | Some e => e
        | None => "The server did not respond."
        end
   /\ details_hidden (page (world o)) = false
   /\ actions_hidden (page (world o)) = false
   /\ retry_disabled (page (world o)) = false
   /\ replies_to launch_app (events o) = [])
  /\ (forall (w' : World) (st' : BootstrapState),
        ready st' = true ->
        config_error st' = None ->
        reachable st' = false ->
        reachability_error st' = reachability_error st ->
        dispatch backend st' w' = dispatch backend st w').
Proof.
  intros Hreply Hready Hcfg Hreach. split.
  - unfold_frontend. cbn. rewrite Hreply. cbn.
    rewrite Hready, Hcfg, Hreach. cbn.
    split_on_window w; repeat split; reflexivity.
  - intros w' st' Hready' Hcfg' Hreach' Herr.
    rewrite !dispatch_unreachable by assumption.
    rewrite Herr. reflexivity.
Qed.

End BootstrapDispatch.

(** C3, as stated, fails: a state that is ready and whose configuration
    error is the empty string (not [null], but falsy) is dispatched as
    a healthy one, and [launch_app] is invoked. *)
Lemma config_error_blank_is_launched :
  ~ (forall (be : Backend) (w : World) (st : BootstrapState),
       bootstrap_state_reply be (history w) = inr st ->
       ready st = false \/ config_error st <> None ->
       status_textContent (page (world (bootstrap be w))) = "Configuration error"
       /\ retry_disabled (page (world (bootstrap be w))) = true
       /\ replies_to launch_app (events (bootstrap be w)) = []).
Proof.
  intros claim.
  pose (st := sample_state true (Some "") true true true).
  destruct (claim (sample_backend st) initial_world st eq_refl) as (_ & _ & H).
  - right. discriminate.
  - vm_compute in H. discriminate H.
Qed.

Lemma bootstrap_parity_ok_launches_directly_witness :
  exists before after,
    events (bootstrap (sample_backend (sample_state true None true true true))
              initial_world)
    = before ++ Invoked launch_app None :: after
    /\ forallb (fun e => negb (alarming e)) before = true
    /\ replies_to launch_app before = []
    /\ res (bootstrap (sample_backend (sample_state true None true true true))
              initial_world) = inr tt.
Proof.
  exact (bootstrap_parity_ok_launches_directly
           (sample_backend (sample_state true None true true true))
           initial_world (sample_state true None true true true)
           eq_refl eq_refl eq_refl eq_refl eq_refl).
Defined.

Lemma bootstrap_parity_mismatch_witness :
  retry_disabled
    (page (world (bootstrap (sample_backend (sample_state true None true false true))
                    initial_world))) = false
  /\ exists before after,
       events (bootstrap (sample_backend (sample_state true None true false false))
                 initial_world)
       = before
         ++ [ StatusSet warning "Build parity warning";
              DetailsSet (withHints (sample_state true None true false false));
              DetailsHidden false ]
         ++ [ StatusSet loading "Opening remote app...";
              DetailsHidden true; ActionsHidden true; RetryDisabled true ]
         ++ Invoked launch_app None :: after
       /\ replies_to launch_app before = []
       /\ res (bootstrap (sample_backend (sample_state true None true false false))
                 initial_world) = inr tt.
Proof.
  split.
  - apply (proj1 (bootstrap_parity_mismatch
                    (sample_backend (sample_state true None true false true))
                    initial_world (sample_state true None true false true)
                    eq_refl eq_refl eq_refl eq_refl eq_refl) eq_refl).
  - exact (proj2 (bootstrap_parity_mismatch
                    (sample_backend (sample_state true None true false false))
                    initial_world (sample_state true None true false false)
                    eq_refl eq_refl eq_refl eq_refl eq_refl) eq_refl).
Defined.

Lemma bootstrap_config_error_is_terminal_witness :
  status_textContent
    (page (world (bootstrap
                    (sample_backend (sample_state true (Some "APP_URL is missing") true true true))
                    initial_world))) = "Configuration error"
  /\ retry_disabled
       (page (world (bootstrap (sample_backend (sample_state false None true true true))
                       initial_world))) = true.
Proof.
  split.
  - apply (bootstrap_config_error_is_terminal
             (sample_backend (sample_state true (Some "APP_URL is missing") true true true))
             initial_world
             (sample_state true (Some "APP_URL is missing") true true true)
             eq_refl).
    right. reflexivity.
  - apply (bootstrap_config_error_is_terminal
             (sample_backend (sample_state false None true true true))
             initial_world (sample_state false None true true true) eq_refl).
    left. reflexivity.
Defined.

Lemma bootstrap_unreachable_ignores_parity_witness :
  status_textContent
    (page (world (bootstrap (sample_backend (sample_state true None false false true))
                    initial_world))) = "Server unreachable"
  /\ dispatch (sample_backend (sample_state true None false false true))
       (sample_state true None false true false) initial_world
     = dispatch (sample_backend (sample_state true None false false true))
         (sample_state true None false false true) initial_world.
Proof.
  pose proof (bootstrap_unreachable_ignores_parity
                (sample_backend (sample_state true None false false true))
                initial_world (sample_state true None false false true)
                eq_refl eq_refl eq_refl eq_refl) as [Hscreen Hsame].
  split.
  - apply Hscreen.
  - apply Hsame; reflexivity.
Defined.

(** * The parity-failure message *)

Lemma string_app_assoc (a b c : string) :
  (a +:+ b) +:+ c = a +:+ b +:+ c.
Proof.
  induction a as [| ch a IH]; [reflexivity |].
  change (String ch ((a +:+ b) +:+ c) = String ch (a +:+ b +:+ c)).
  now f_equal.
Qed.



Section ParityMessage.

Variable backend : Backend.


End ParityMessage.


(** * The current dispatch against the earlier one *)

Section Refinement.

Variable backend : Backend.

Lemma legacy_bootstrap_screen (w : World) (st : BootstrapState) :
  bootstrap_state_reply backend (history w) = inr st ->
  screen_of (Legacy.bootstrap backend w)
  = expected_screen st
      (command_reply backend launch_app (bootstrap_state :: history w)).
Proof.
  intros Hreply. unfold expected_screen, screen_of.
  unfold_legacy. cbn. rewrite Hreply. cbn.
  destruct (negb (ready st) || truthy (config_error st)); cbn;
    [reflexivity |].
  destruct (reachable st); cbn; [| reflexivity].
  split_on_reply launch_app; reflexivity.
Qed.

Lemma bootstrap_screen (w : World) (st : BootstrapState) :
  bootstrap_state_reply backend (history w) = inr st ->
  build_parity_ok st = true
  \/ ready st = false
  \/ truthy (config_error st) = true
  \/ reachable st = false ->
  screen_of (bootstrap backend w)
  = expected_screen st
      (command_reply backend launch_app (bootstrap_state :: history w)).
Proof.
  intros Hreply Hdomain. unfold expected_screen, screen_of.
  unfold_frontend. cbn. rewrite Hreply. cbn.
  destruct (negb (ready st) || truthy (config_error st)) eqn:Hgate; cbn.
  - split_on_window w; reflexivity.
  - destruct (reachable st) eqn:Hreach; cbn.
    + assert (Hok : build_parity_ok st = true).
      { apply orb_false_iff in Hgate as [Hready Hcfg].
        apply negb_false_iff in Hready.
        destruct Hdomain as [H | [H | [H | H]]]; congruence. }
      rewrite Hok. cbn.
      split_on_reply launch_app; [split_on_window w |]; reflexivity.
    + split_on_window w; reflexivity.
Qed.

(** C9. On a state that reports parity, or is not ready, or carries a
    configuration error the dispatch takes as one, or is not reachable,
    the current [bootstrap] and the earlier one, started with the same
    command history, leave the same screen: the configuration error with
    Retry disabled and no launch when the state is not ready or carries
    such an error; otherwise one [launch_app] invocation when the state
    is reachable; otherwise the unreachable error with Retry enabled and
    no launch. *)
Theorem bootstrap_refines_legacy (w w' : World) (st : BootstrapState) :
  history w = history w' ->
  bootstrap_state_reply backend (history w) = inr st ->
  build_parity_ok st = true
  \/ ready st = false
  \/ truthy (config_error st) = true
  \/ reachable st = false ->
  screen_of (bootstrap backend w) = screen_of (Legacy.bootstrap backend w')
  /\ screen_of (bootstrap backend w)
     = expected_screen st
         (command_reply backend launch_app (bootstrap_state :: history w)).
Proof.
  intros Hhistory Hreply Hdomain.
  rewrite (bootstrap_screen w st Hreply Hdomain).
  rewrite (legacy_bootstrap_screen w' st) by (rewrite <- Hhistory; exact Hreply).
  rewrite Hhistory. split; reflexivity.
Qed.

End Refinement.

Lemma bootstrap_refines_legacy_witness :
  screen_of (bootstrap (sample_backend (sample_state true None false false true))
               initial_world)
  = screen_of (Legacy.bootstrap
                 (sample_backend (sample_state true None false false true))
                 initial_world)
  /\ screen_of (bootstrap (sample_backend (sample_state true None false false true))
                  initial_world)
     = {| screen_status := ("status error", "Server unreachable");
          screen_error := Some "The server did not respond.";
          screen_retry_disabled := false;
          screen_launches := [] |}.
Proof.
  apply (bootstrap_refines_legacy
           (sample_backend (sample_state true None false false true))
           initial_world initial_world
           (sample_state true None false false true) eq_refl eq_refl).
  right. right. right. reflexivity.
Defined.

(** * The main window is shown at most once *)

Section MainWindow.

Variable backend : Backend.

Lemma successes_app (cmd : Command) (ev1 ev2 : list Event) :
  successes cmd (ev1 ++ ev2) = successes cmd ev1 + successes cmd ev2.
Proof.
  unfold successes.
  assert (Happ : replies_to cmd (ev1 ++ ev2)
                 = replies_to cmd ev1 ++ replies_to cmd ev2).
  { induction ev1 as [| e ev1 IH]; [reflexivity |].
    destruct e; cbn; try exact IH.
    destruct (decide (cmd0 = cmd)); cbn; [now rewrite IH | exact IH]. }
  rewrite Happ, filter_app, length_app. reflexivity.
Qed.

Lemma accounted_ret {A} (a : A) : accounted (ret a).
Proof. intros w. reflexivity. Qed.

Lemma accounted_bind {A B} (m : M A) (k : A -> M B) :
  accounted m -> (forall a, accounted (k a)) -> accounted (bind m k).
Proof.
  intros Hm Hk w. unfold bind.
  specialize (Hm w). destruct (m w) as [[e | a] w1 ev1]; cbn [events world] in *.
  - exact Hm.
  - specialize (Hk a w1). destruct (k a w1) as [r w2 ev2]; cbn [events world] in *.
    rewrite successes_app. lia.
Qed.

Lemma accounted_try_catch {A} (body : M A) (handler : string -> M A) :
  accounted body -> (forall e, accounted (handler e)) ->
  accounted (try_catch body handler).
Proof.
  intros Hbody Hhandler w. unfold try_catch.
  specialize (Hbody w). destruct (body w) as [[e | a] w1 ev1]; cbn [events world] in *.
  - specialize (Hhandler e w1). destruct (handler e w1) as [r w2 ev2]; cbn [events world] in *.
    rewrite successes_app. lia.
  - exact Hbody.
Qed.

Lemma accounted_write (f : Dom -> Dom) (e : Event) :
  (forall cmd r, e <> Invoked cmd r) -> accounted (write f e).
Proof.
  intros Hne w. destruct e; try reflexivity. now destruct (Hne cmd rejected).
Qed.

Lemma accounted_invoke (cmd : Command) :
  cmd <> show_main_window -> accounted (invoke backend cmd).
Proof.
  intros Hne w. unfold invoke, successes. cbn.
  destruct (decide (cmd = show_main_window)); [contradiction | reflexivity].
Qed.

Lemma accounted_invoke_bootstrap_state :
  accounted (invoke_bootstrap_state backend).
Proof. intros w. reflexivity. Qed.

Lemma accounted_invoke_get_about_info :
  accounted (invoke_get_about_info backend).
Proof. intros w. reflexivity. Qed.

Lemma accounted_ensureMainWindowVisible :
  accounted (ensureMainWindowVisible backend).
Proof.
  intros w. unfold_frontend. cbn.
  destruct (windowVisible w) eqn:Hvisible; cbn.
  - rewrite Hvisible. reflexivity.
  - split_on_reply show_main_window; rewrite ?Hvisible; reflexivity.
Qed.

End MainWindow.

Create HintDb accounting.

#[export] Hint Resolve accounted_ret accounted_invoke_bootstrap_state
  accounted_invoke_get_about_info accounted_ensureMainWindowVisible
  : accounting.

(** Closes [accounted] goals over a composition of frontend steps. *)
Ltac account :=
  repeat first
    [ solve [auto with accounting]
    | apply accounted_write; discriminate
    | apply accounted_invoke; discriminate
    | apply accounted_bind; [| intros ?]
    | apply accounted_try_catch; [| intros ?] ].

Section Session.

Variable backend : Backend.

Lemma accounted_setStatus kind message : accounted (setStatus kind message).
Proof. unfold setStatus. account. Qed.

Lemma accounted_setLoaderMode : accounted setLoaderMode.
Proof. unfold setLoaderMode. account. Qed.

Lemma accounted_setErrorMode message : accounted (setErrorMode message).
Proof. unfold setErrorMode, setDetails. account. Qed.

Lemma accounted_openRemoteApp : accounted (openRemoteApp backend).
Proof.
  unfold openRemoteApp.
  pose proof accounted_setStatus. pose proof accounted_setLoaderMode.
  pose proof accounted_setErrorMode. account.
Qed.

Lemma accounted_retryConnection : accounted (retryConnection backend).
Proof.
  unfold retryConnection.
  pose proof accounted_setStatus. pose proof accounted_setLoaderMode.
  pose proof accounted_setErrorMode. account.
Qed.

Lemma accounted_showAboutDialog : accounted (showAboutDialog backend).
Proof. unfold showAboutDialog. account. Qed.

Lemma accounted_dispatch st : accounted (dispatch backend st).
Proof.
  unfold dispatch.
  pose proof accounted_setStatus. pose proof accounted_setErrorMode.
  pose proof accounted_openRemoteApp.
  destruct (negb (ready st) || truthy (config_error st));
    [| destruct (reachable st);
       [destruct (negb (build_parity_ok st));
          [destruct (enforce_web_build st) |] |]];
    unfold setDetails; account.
Qed.

Lemma accounted_bootstrap : accounted (bootstrap backend).
Proof.
  unfold bootstrap.
  pose proof accounted_setStatus. pose proof accounted_setLoaderMode.
  pose proof accounted_setErrorMode. pose proof accounted_dispatch.
  account.
Qed.

Lemma accounted_on_click c : accounted (on_click backend c).
Proof.
  destruct c; cbn.
  - intros w. destruct (retry_disabled (page w)).
    + reflexivity.
    + apply accounted_retryConnection.
  - apply accounted_showAboutDialog.
Qed.

Lemma accounted_serve clicks : accounted (serve backend clicks).
Proof.
  induction clicks as [| c rest IH]; cbn.
  - apply accounted_ret.
  - apply accounted_bind; [apply accounted_on_click | intros _; exact IH].
Qed.

(** C10. [ensureMainWindowVisible] always returns normally; called when
    [windowVisible] is set it returns at once, changing nothing and
    invoking nothing; called when it is not set and the native side
    resolves [show_main_window], it sets [windowVisible]; and over a page
    session (the first [bootstrap], then any clicks on Retry and About)
    [show_main_window] is invoked and resolved at most once. *)
Theorem ensureMainWindowVisible_shows_once :
  (forall w, res (ensureMainWindowVisible backend w) = inr tt)
  /\ (forall w,
        windowVisible w = true ->
        ensureMainWindowVisible backend w = mkOut (inr tt) w [])
  /\ (forall w,
        windowVisible w = false ->
        command_reply backend show_main_window (history w) = None ->
        windowVisible (world (ensureMainWindowVisible backend w)) = true
        /\ events (ensureMainWindowVisible backend w)
           = [Invoked show_main_window None])
  /\ (forall clicks,
        successes show_main_window (events (session backend clicks)) <= 1).
Proof.
  split; [apply ensureMainWindowVisible_returns |].
  split; [| split].
  - intros w Hvisible. unfold_frontend. cbn. rewrite Hvisible. reflexivity.
  - intros w Hhidden Hresolved. unfold_frontend. cbn.
    rewrite Hhidden. cbn. rewrite Hresolved. split; reflexivity.
  - intros clicks. unfold session.
    assert (Hrun : accounted (bind (bootstrap backend)
                                (fun _ => serve backend clicks))).
    { apply accounted_bind;
        [apply accounted_bootstrap | intros _; apply accounted_serve]. }
    specialize (Hrun initial_world).
    cbn [windowVisible initial_world Nat.b2n] in Hrun.
    destruct (windowVisible _) in Hrun; cbn in Hrun; lia.
Qed.

End Session.

Lemma ensureMainWindowVisible_shows_once_witness :
  ensureMainWindowVisible (sample_backend (sample_state true None true true true))
    {| page := initial_page; windowVisible := true; history := [show_main_window] |}
  = mkOut (inr tt)
      {| page := initial_page; windowVisible := true; history := [show_main_window] |}
      []
  /\ windowVisible
       (world (ensureMainWindowVisible
                 (sample_backend (sample_state true None true true true))
                 initial_world)) = true.
Proof.
  destruct (ensureMainWindowVisible_shows_once
              (sample_backend (sample_state true None true true true)))
    as (_ & Himmediate & Hshown & _).
  split.
  - apply Himmediate. reflexivity.
  - apply Hshown; reflexivity.
Defined.

(** * The launch gating rules *)


Module BuildParityFacts.
Import BuildParityChecker.





End BuildParityFacts.

Module NavigationGuardFacts.
Import NavigationGuard.

Lemma decide_request_allow (allowed_hosts : gset string) (req : Request) :
  decide_request allowed_hosts req = Allow <->
  exists h, h ∈ allowed_hosts /\ to_lowercase h = to_lowercase (host req).
Proof.
  unfold decide_request. case_decide as Hin.
  - split; [intros _ | reflexivity].
    apply elem_of_map in Hin as (h & Heq & Hh). eauto.
  - split; [discriminate |]. intros (h & Hh & Heq).
    destruct Hin. apply elem_of_map. eauto.
Qed.

(** C2. The guard allows a request exactly when some allowed host equals
    the request's host up to letter case; two requests to the same host
    get the same decision, whatever their ports; a blocked request
    leaves the window as it was, on its current page and with nothing
    handed to an external browser; and with [allowed_hosts =
    {192.168.50.55}] a request to [evil.example.com] is blocked and a
    request to [192.168.50.55:3000] is allowed. *)
Theorem guard_decides_by_host (allowed_hosts : gset string) (req : Request)
    (win : Window) :
  (decide_request allowed_hosts req = Allow <->
   exists h, h ∈ allowed_hosts /\ to_lowercase h = to_lowercase (host req))
  /\ (decide_request allowed_hosts req = Allow
      \/ decide_request allowed_hosts req = Block)
  /\ (forall req',
        host req' = host req ->
        decide_request allowed_hosts req' = decide_request allowed_hosts req)
  /\ (decide_request allowed_hosts req = Block ->
      navigate allowed_hosts win req = win)
  /\ decide_request {["192.168.50.55"]}
       {| scheme := "https"; host := "evil.example.com"; port := None;
          path := "/" |} = Block
  /\ decide_request {["192.168.50.55"]}
       {| scheme := "http"; host := "192.168.50.55"; port := Some 3000%Z;
          path := "/" |} = Allow.
Proof.
  split; [apply decide_request_allow |].
  split; [destruct (decide_request allowed_hosts req); auto |].
  split; [intros req' Hhost; unfold decide_request; now rewrite Hhost |].
  split; [intros Hblock; unfold navigate; now rewrite Hblock |].
  split.
  - destruct (decide_request _ _) eqn:Hd; [| reflexivity].
    apply decide_request_allow in Hd as (h & Hh & Heq).
    apply elem_of_singleton in Hh as ->. discriminate Heq.
  - apply decide_request_allow. exists "192.168.50.55".
    split; [now apply elem_of_singleton | reflexivity].
Qed.

Lemma guard_decides_by_host_witness :
  navigate {["192.168.50.55"]}
    {| current := {| scheme := "http"; host := "192.168.50.55";
                     port := Some 3000%Z; path := "/" |};
       external := [] |}
    {| scheme := "https"; host := "evil.example.com"; port := None;
       path := "/" |}
  = {| current := {| scheme := "http"; host := "192.168.50.55";
                     port := Some 3000%Z; path := "/" |};
       external := [] |}.
Proof.
  pose proof (guard_decides_by_host {["192.168.50.55"]}
                {| scheme := "https"; host := "evil.example.com";
                   port := None; path := "/" |}
                {| current := {| scheme := "http"; host := "192.168.50.55";
                                 port := Some 3000%Z; path := "/" |};
                   external := [] |})
    as (_ & _ & _ & Hstay & Hblocked & _).
  apply Hstay. exact Hblocked.
Defined.

End NavigationGuardFacts.

Module ConfigResolverFacts.
Import ConfigResolver.

Lemma walk_from_lookup (sources : list (gmap string string))
    (resolved : gmap string string) (key : string) (rank : nat) :
  foldl (fun resolved source => resolved ∪ source) resolved sources !! key
  = match resolved !! key with
    | Some v => Some v
    | None => snd <$> first_defining key rank sources
    end.
Proof.
  revert resolved rank. induction sources as [| source rest IH];
    intros resolved rank; cbn.
  - now destruct (resolved !! key).
  - rewrite (IH _ (S rank)), lookup_union.
    destruct (resolved !! key), (source !! key); reflexivity.
Qed.

Lemma walk_lookup (sources : list (gmap string string)) (key : string) :
  walk sources !! key = snd <$> first_defining key 0 sources.
Proof.
  unfold walk. now rewrite (walk_from_lookup _ _ _ 0), lookup_empty.
Qed.

Lemma first_defining_at (sources : list (gmap string string)) (key : string)
    (rank i : nat) (source : gmap string string) (v : string) :
  sources !! i = Some source ->
  source !! key = Some v ->
  (forall j higher, j < i -> sources !! j = Some higher -> higher !! key = None) ->
  first_defining key rank sources = Some (rank + i, v).
Proof.
  revert rank i. induction sources as [| first rest IH];
    intros rank i Hi Hv Hhigher; [discriminate |].
  destruct i as [| i]; cbn in *.
  - injection Hi as ->. rewrite Hv. do 2 f_equal. lia.
  - rewrite (Hhigher 0 first) by (reflexivity || lia).
    rewrite (IH (S rank) i Hi Hv).
    + do 2 f_equal. lia.
    + intros j higher Hj. apply (Hhigher (S j)). lia.
Qed.

(** C6. Resolution is per key.  If a source of rank [i] among the four
    defines [key] and no source of higher precedence does, the resolved
    value of [key] is that source's; and the resolved value is found by
    asking the process environment, then the file of the working
    directory, then the file next to the executable, then the per-user
    file, each only when the ones before it leave [key] undefined. *)
Theorem resolve_is_per_key (s : ConfigSources) (key : string) :
  (forall i source v,
     ranked s !! i = Some source ->
     source !! key = Some v ->
     (forall j higher,
        j < i -> ranked s !! j = Some higher -> higher !! key = None) ->
     resolve s !! key = Some v)
  /\ resolve s !! key
     = match process_env s !! key with
       | Some v => Some v
       | None =>
           match yield (cwd_file s) !! key with
           | Some v => Some v
           | None =>
               match yield (exe_file s) !! key with
               | Some v => Some v
               | None => yield (prepare_appdata (appdata_file s)) !! key
               end
           end
       end.
Proof.
  split.
  - intros i source v Hi Hv Hhigher. unfold resolve.
    rewrite walk_lookup, (first_defining_at _ _ 0 i source v Hi Hv Hhigher).
    reflexivity.
  - unfold resolve. rewrite walk_lookup. unfold ranked. cbn.
    destruct (process_env s !! key); [reflexivity |].
    destruct (yield (cwd_file s) !! key); [reflexivity |].
    destruct (yield (exe_file s) !! key); [reflexivity |].
    now destruct (yield (prepare_appdata (appdata_file s)) !! key).
Qed.

Lemma resolve_is_per_key_witness :
  resolve
    {| process_env := {["WINDOW_TITLE" := "CRA (test)"]};
       cwd_file := Absent;
       exe_file := Lines {["APP_URL" := "http://192.168.50.55:3000"]};
       appdata_file := Lines {["APP_URL" := "https://10.0.0.1"]} |}
    !! "APP_URL"
  = Some "http://192.168.50.55:3000".
Proof.
  apply (proj1 (resolve_is_per_key _ "APP_URL") 2
           {["APP_URL" := "http://192.168.50.55:3000"]}).
  - reflexivity.
  - reflexivity.
  - intros [| [| j]] higher Hj Hsome; [| | lia];
      injection Hsome as <-; reflexivity.
Defined.

End ConfigResolverFacts.

(** * Further properties of the frontend *)

(** Splits on every answer and every tested field the goal is stuck
    on. *)
Ltac split_cases :=
  repeat match goal with
  | |- context [match bootstrap_state_reply ?b ?h with _ => _ end] =>
      destruct (bootstrap_state_reply b h) eqn:?; cbn
  | |- context [match about_info_reply ?b ?h with _ => _ end] =>
      destruct (about_info_reply b h) eqn:?; cbn
  | |- context [if negb (ready ?st) || truthy (config_error ?st) then _ else _] =>
      destruct (negb (ready st) || truthy (config_error st)) eqn:?; cbn
  | |- context [if reachable ?st then _ else _] =>
      destruct (reachable st) eqn:?; cbn
  | |- context [if negb (build_parity_ok ?st) then _ else _] =>
      destruct (build_parity_ok st) eqn:?; cbn
  | |- context [if enforce_web_build ?st then _ else _] =>
      destruct (enforce_web_build st) eqn:?; cbn
  | |- context [match command_reply ?b ?c ?h with _ => _ end] =>
      destruct (command_reply b c h) eqn:?; cbn
  | |- context [if windowVisible ?w then _ else _] =>
      destruct (windowVisible w) eqn:?; cbn
  end.

Section Handlers.

Variable backend : Backend.

Lemma returns_bootstrap : returns (bootstrap backend).
Proof. intros w. unfold_frontend. cbn. split_cases; reflexivity. Qed.

Lemma returns_openRemoteApp : returns (openRemoteApp backend).
Proof. intros w. unfold_frontend. cbn. split_cases; reflexivity. Qed.

Lemma returns_retryConnection : returns (retryConnection backend).
Proof. intros w. unfold_frontend. cbn. split_cases; reflexivity. Qed.

Lemma returns_showAboutDialog : returns (showAboutDialog backend).
Proof.
  intros w. unfold showAboutDialog, invoke_get_about_info. unfold_frontend.
  cbn. split_cases; reflexivity.
Qed.

Lemma returns_on_click c : returns (on_click backend c).
Proof.
  destruct c; intros w; cbn.
  - destruct (retry_disabled (page w));
      [reflexivity | apply returns_retryConnection].
  - apply returns_showAboutDialog.
Qed.

Lemma returns_serve clicks : returns (serve backend clicks).
Proof.
  induction clicks as [| c rest IH]; intros w; cbn; [reflexivity |].
  unfold bind. pose proof (returns_on_click c w) as Hc.
  destruct (on_click backend c w) as [r w1 ev1]. cbn in Hc. subst r.
  specialize (IH w1). destruct (serve backend rest w1) as [r w2 ev2].
  exact IH.
Qed.

(** X1. No handler of the page lets a rejection escape: [bootstrap],
    [openRemoteApp], [retryConnection], [showAboutDialog] and any
    sequence of clicks return normally whatever the native side
    answers. *)
Theorem handlers_never_reject :
  returns (bootstrap backend)
  /\ returns (openRemoteApp backend)
  /\ returns (retryConnection backend)
  /\ returns (showAboutDialog backend)
  /\ (forall clicks, returns (serve backend clicks)).
Proof.
  repeat split;
    auto using returns_bootstrap, returns_openRemoteApp,
      returns_retryConnection, returns_showAboutDialog, returns_serve.
Qed.

(** X2. When [bootstrap_state] is rejected, [bootstrap] ends on the
    error screen "Bootstrap failed" showing the rejection text, with
    the actions shown and Retry enabled; the subtitle keeps its text and
    neither [launch_app] nor [retry_connect] is invoked. *)
Theorem bootstrap_state_rejected (w : World) (cause : string) :
  bootstrap_state_reply backend (history w) = inl cause ->
  let o := bootstrap backend w in
  status_className (page (world o)) = "status error"
  /\ status_textContent (page (world o)) = "Bootstrap failed"
  /\ details_textContent (page (world o)) = cause
  /\ details_hidden (page (world o)) = false
  /\ actions_hidden (page (world o)) = false
  /\ retry_disabled (page (world o)) = false
  /\ subtitle_textContent (page (world o)) = subtitle_textContent (page w)
  /\ replies_to launch_app (events o) = []
  /\ replies_to retry_connect (events o) = [].
Proof.
  intros Hreply. unfold_frontend. cbn. rewrite Hreply. cbn.
  split_cases; repeat split; reflexivity.
Qed.

(** X3. [openRemoteApp] invokes [launch_app] once.  If it resolves, the
    page stays in loader mode ("Opening remote app...", details and
    actions hidden, Retry disabled), the details text and
    [windowVisible] are untouched and [show_main_window] is not
    invoked.  If it is rejected, the page ends on the error "Could not
    open the app." showing the rejection text with Retry enabled,
    whether or not the window could be shown. *)
Theorem openRemoteApp_outcome (w : World) :
  let o := openRemoteApp backend w in
  replies_to launch_app (events o) = [command_reply backend launch_app (history w)]
  /\ match command_reply backend launch_app (history w) with
     | None =>
         status_className (page (world o)) = "status loading"
         /\ status_textContent (page (world o)) = "Opening remote app..."
         /\ details_hidden (page (world o)) = true
         /\ actions_hidden (page (world o)) = true
         /\ retry_disabled (page (world o)) = true
         /\ details_textContent (page (world o)) = details_textContent (page w)
         /\ windowVisible (world o) = windowVisible w
         /\ replies_to show_main_window (events o) = []
     | Some cause =>
         status_className (page (world o)) = "status error"
         /\ status_textContent (page (world o)) = "Could not open the app."
         /\ details_textContent (page (world o)) = cause
         /\ details_hidden (page (world o)) = false
         /\ actions_hidden (page (world o)) = false
         /\ retry_disabled (page (world o)) = false
     end.
Proof.
  unfold_frontend. cbn.
  destruct (command_reply backend launch_app (history w)) eqn:Hlaunch; cbn.
  - split_cases; repeat split; reflexivity.
  - repeat split; reflexivity.
Qed.

(** X4. [retryConnection] invokes [retry_connect] once and never
    [launch_app] or [bootstrap_state].  If the retry resolves, the page
    stays in loader mode ("Retrying connection...", Retry disabled); if
    it is rejected, the page ends on the error "Server is still
    unreachable." showing the rejection text with Retry enabled. *)
Theorem retryConnection_outcome (w : World) :
  let o := retryConnection backend w in
  replies_to retry_connect (events o)
  = [command_reply backend retry_connect (history w)]
  /\ replies_to launch_app (events o) = []
  /\ replies_to bootstrap_state (events o) = []
  /\ match command_reply backend retry_connect (history w) with
     | None =>
         status_className (page (world o)) = "status loading"
         /\ status_textContent (page (world o)) = "Retrying connection..."
         /\ details_hidden (page (world o)) = true
         /\ actions_hidden (page (world o)) = true
         /\ retry_disabled (page (world o)) = true
         /\ replies_to show_main_window (events o) = []
     | Some cause =>
         status_className (page (world o)) = "status error"
         /\ status_textContent (page (world o)) = "Server is still unreachable."
         /\ details_textContent (page (world o)) = cause
         /\ details_hidden (page (world o)) = false
         /\ actions_hidden (page (world o)) = false
         /\ retry_disabled (page (world o)) = false
     end.
Proof.
  unfold_frontend. cbn.
  destruct (command_reply backend retry_connect (history w)) eqn:Hretry; cbn.
  - split_cases; repeat split; reflexivity.
  - repeat split; reflexivity.
Qed.

End Handlers.

Lemma bootstrap_state_rejected_witness :
  details_textContent
    (page (world (bootstrap (broken_backend "ipc closed") initial_world)))
  = "ipc closed"
  /\ retry_disabled
       (page (world (bootstrap (broken_backend "ipc closed") initial_world)))
     = false.
Proof.
  pose proof (bootstrap_state_rejected (broken_backend "ipc closed")
                initial_world "ipc closed" eq_refl)
    as (_ & _ & Hdetails & _ & _ & Hretry & _).
  split; [exact Hdetails | exact Hretry].
Defined.

(** * Properties of a page session *)

Section SessionInvariants.

Variable backend : Backend.

Lemma bootstrap_guards_retry (w : World) :
  retry_guarded (page (world (bootstrap backend w))).
Proof.
  unfold retry_guarded. unfold_frontend. cbn.
  split_cases; intros Henabled; try discriminate Henabled;
    repeat split; reflexivity.
Qed.

Lemma retryConnection_guards_retry (w : World) :
  retry_guarded (page (world (retryConnection backend w))).
Proof.
  unfold retry_guarded. unfold_frontend. cbn.
  split_cases; intros Henabled; try discriminate Henabled;
    repeat split; reflexivity.
Qed.

Lemma showAboutDialog_keeps_guard (w : World) :
  retry_guarded (page w) ->
  retry_guarded (page (world (showAboutDialog backend w))).
Proof.
  unfold retry_guarded, showAboutDialog, invoke_get_about_info.
  unfold_frontend. cbn. split_cases; exact (fun H => H).
Qed.

Lemma serve_keeps_guard (clicks : list Click) (w : World) :
  retry_guarded (page w) ->
  retry_guarded (page (world (serve backend clicks w))).
Proof.
  revert w. induction clicks as [| c rest IH]; intros w Hguard; [exact Hguard |].
  cbn [serve]. unfold bind.
  assert (Hstep : retry_guarded (page (world (on_click backend c w)))).
  { destruct c; cbn.
    - destruct (retry_disabled (page w)) eqn:Hdisabled;
        [exact Hguard | apply retryConnection_guards_retry].
    - now apply showAboutDialog_keeps_guard. }
  pose proof (returns_on_click backend c w) as Hres.
  destruct (on_click backend c w) as [r w1 ev1]. cbn in Hres, Hstep. subst r.
  specialize (IH w1 Hstep).
  destruct (serve backend rest w1) as [r w2 ev2]. exact IH.
Qed.

(** X5. Throughout a page session Retry can be pressed only on an error
    screen: after the first [bootstrap] and any clicks, if the Retry
    button is enabled then the actions and the details are shown and
    the status is an error. *)
Theorem session_guards_retry (clicks : list Click) :
  retry_guarded (page (world (session backend clicks))).
Proof.
  unfold session, bind.
  pose proof (bootstrap_guards_retry initial_world) as Hguard.
  pose proof (returns_bootstrap backend initial_world) as Hres.
  destruct (bootstrap backend initial_world) as [r w1 ev1].
  cbn in Hres, Hguard. subst r.
  pose proof (serve_keeps_guard clicks w1 Hguard) as Hserve.
  destruct (serve backend clicks w1) as [r w2 ev2]. exact Hserve.
Qed.

Lemma replies_to_app (cmd : Command) (ev1 ev2 : list Event) :
  replies_to cmd (ev1 ++ ev2) = replies_to cmd ev1 ++ replies_to cmd ev2.
Proof.
  induction ev1 as [| e ev1 IH]; [reflexivity |].
  destruct e; cbn; try exact IH.
  destruct (decide (cmd0 = cmd)); cbn; [now rewrite IH | exact IH].
Qed.

Lemma bootstrap_invocations (w : World) :
  invocations bootstrap_state (events (bootstrap backend w)) = 1
  /\ invocations launch_app (events (bootstrap backend w)) <= 1
  /\ invocations retry_connect (events (bootstrap backend w)) = 0.
Proof.
  unfold invocations. unfold_frontend. cbn.
  split_cases; repeat split; vm_compute; lia.
Qed.

Lemma on_click_invocations (c : Click) (w : World) :
  invocations bootstrap_state (events (on_click backend c w)) = 0
  /\ invocations launch_app (events (on_click backend c w)) = 0.
Proof.
  unfold invocations. destruct c; cbn.
  - destruct (retry_disabled (page w)); [split; reflexivity |].
    unfold_frontend. cbn. split_cases; split; reflexivity.
  - unfold showAboutDialog, invoke_get_about_info. unfold_frontend. cbn.
    split_cases; split; reflexivity.
Qed.

Lemma serve_invocations (clicks : list Click) (w : World) :
  invocations bootstrap_state (events (serve backend clicks w)) = 0
  /\ invocations launch_app (events (serve backend clicks w)) = 0.
Proof.
  revert w. induction clicks as [| c rest IH]; intros w; [split; reflexivity |].
  cbn [serve]. unfold bind.
  pose proof (on_click_invocations c w) as [Hb Hl].
  pose proof (returns_on_click backend c w) as Hres.
  destruct (on_click backend c w) as [r w1 ev1]. cbn in Hres, Hb, Hl. subst r.
  specialize (IH w1). destruct (serve backend rest w1) as [r w2 ev2].
  cbn in IH |- *. unfold invocations in *.
  rewrite !replies_to_app, !length_app. lia.
Qed.

(** X6. In a page session [bootstrap_state] is invoked exactly once and
    [launch_app] at most once, whatever is clicked afterwards: Retry
    asks the native side to reconnect and never launches by itself. *)
Theorem session_invocations (clicks : list Click) :
  invocations bootstrap_state (events (session backend clicks)) = 1
  /\ invocations launch_app (events (session backend clicks)) <= 1.
Proof.
  unfold session, bind.
  pose proof (bootstrap_invocations initial_world) as (Hb & Hl & _).
  pose proof (returns_bootstrap backend initial_world) as Hres.
  destruct (bootstrap backend initial_world) as [r w1 ev1].
  cbn in Hres, Hb, Hl. subst r.
  pose proof (serve_invocations clicks w1) as [Hb' Hl'].
  destruct (serve backend clicks w1) as [r w2 ev2]. cbn in Hb', Hl' |- *.
  unfold invocations in *. rewrite !replies_to_app, !length_app. lia.
Qed.

(** X7. An error screen is never left behind a hidden window without an
    attempt to show it: when [bootstrap], [openRemoteApp] or
    [retryConnection] ends with an error status, either [windowVisible]
    is set or [show_main_window] was invoked in that run and
    rejected. *)
Theorem error_screen_shows_window (w : World) :
  (status_className (page (world (bootstrap backend w))) = "status error" ->
   window_attempted (bootstrap backend w))
  /\ (status_className (page (world (openRemoteApp backend w))) = "status error" ->
      window_attempted (openRemoteApp backend w))
  /\ (status_className (page (world (retryConnection backend w))) = "status error" ->
      window_attempted (retryConnection backend w)).
Proof.
  unfold window_attempted.
  repeat split; unfold_frontend; cbn;
    split_cases; intros Herror; try discriminate Herror;
    first [ left; reflexivity | right; eexists; cbn; tauto ].
Qed.

End SessionInvariants.

Lemma error_screen_shows_window_witness :
  window_attempted
    (bootstrap (stubborn_backend (sample_state true None false true true))
       initial_world).
Proof.
  apply (proj1 (error_screen_shows_window
                  (stubborn_backend (sample_state true None false true true))
                  initial_world)).
  reflexivity.
Defined.

(** * Retry and configuration errors over a session *)

Section RetryFlow.

Variable backend : Backend.

Lemma showAboutDialog_frame (w : World) :
  let o := showAboutDialog backend w in
  aboutDialog_open (page (world o)) = true
  /\ aboutBody_textContent (page (world o))
     = match about_info_reply backend (history w) with
       | inr info => String.concat LF (about_lines info)
       | inl cause => "About information unavailable: " +:+ cause
       end
  /\ status_className (page (world o)) = status_className (page w)
  /\ status_textContent (page (world o)) = status_textContent (page w)
  /\ subtitle_textContent (page (world o)) = subtitle_textContent (page w)
  /\ details_textContent (page (world o)) = details_textContent (page w)
  /\ details_hidden (page (world o)) = details_hidden (page w)
  /\ actions_hidden (page (world o)) = actions_hidden (page w)
  /\ retry_disabled (page (world o)) = retry_disabled (page w)
  /\ windowVisible (world o) = windowVisible w
  /\ history (world o) = get_about_info :: history w
  /\ events o
     = [ Invoked get_about_info
           match about_info_reply backend (history w) with
           | inr _ => None
           | inl cause => Some cause
           end;
         AboutBodySet (aboutBody_textContent (page (world o)));
         AboutShown ].
Proof.
  unfold showAboutDialog, invoke_get_about_info. unfold_frontend. cbn.
  destruct (about_info_reply backend (history w)); cbn;
    repeat split; reflexivity.
Qed.

(** X8. [showAboutDialog] always opens the dialog, with the About lines
    when [get_about_info] resolves and with "About information
    unavailable: " and the rejection text when it does not; it invokes
    nothing else and leaves the status, subtitle, details, hidden flags,
    Retry state and [windowVisible] as they were. *)
Theorem showAboutDialog_only_touches_dialog (w : World) :
  let o := showAboutDialog backend w in
  aboutDialog_open (page (world o)) = true
  /\ aboutBody_textContent (page (world o))
     = match about_info_reply backend (history w) with
       | inr info => String.concat LF (about_lines info)
       | inl cause => "About information unavailable: " +:+ cause
       end
  /\ status_className (page (world o)) = status_className (page w)
  /\ status_textContent (page (world o)) = status_textContent (page w)
  /\ subtitle_textContent (page (world o)) = subtitle_textContent (page w)
  /\ details_textContent (page (world o)) = details_textContent (page w)
  /\ details_hidden (page (world o)) = details_hidden (page w)
  /\ actions_hidden (page (world o)) = actions_hidden (page w)
  /\ retry_disabled (page (world o)) = retry_disabled (page w)
  /\ windowVisible (world o) = windowVisible w
  /\ history (world o) = get_about_info :: history w.
Proof.
  pose proof (showAboutDialog_frame w) as H. cbn zeta in *.
  repeat match type of H with _ /\ _ => destruct H as [? H] end.
  repeat split; assumption.
Qed.

Lemma serve_while_retry_disabled (clicks : list Click) (w : World) :
  retry_disabled (page w) = true ->
  let o := serve backend clicks w in
  replies_to retry_connect (events o) = []
  /\ replies_to launch_app (events o) = []
  /\ replies_to show_main_window (events o) = []
  /\ retry_disabled (page (world o)) = true
  /\ status_className (page (world o)) = status_className (page w)
  /\ status_textContent (page (world o)) = status_textContent (page w)
  /\ details_textContent (page (world o)) = details_textContent (page w).
Proof.
  revert w. induction clicks as [| c rest IH]; intros w Hdisabled.
  - cbn. repeat split; assumption || reflexivity.
  - cbn [serve]. unfold bind. destruct c; cbn [on_click].
    + rewrite Hdisabled. cbn.
      specialize (IH w Hdisabled). cbn zeta in IH.
      destruct (serve backend rest w) as [r w2 ev2]. exact IH.
    + pose proof (showAboutDialog_frame w) as Hframe. cbn zeta in Hframe.
      pose proof (returns_showAboutDialog backend w) as Hres.
      destruct (showAboutDialog backend w) as [r w1 ev1].
      cbn in Hres, Hframe. subst r.
      destruct Hframe as (_ & _ & Hc & Ht & _ & Hd & _ & _ & Hr & _ & _ & Hev).
      assert (Hdisabled1 : retry_disabled (page w1) = true) by congruence.
      specialize (IH w1 Hdisabled1). cbn zeta in IH.
      destruct (serve backend rest w1) as [r w2 ev2]. cbn in IH |- *.
      destruct IH as (I1 & I2 & I3 & I4 & I5 & I6 & I7).
      rewrite Hev, !replies_to_app, I1, I2, I3.
      repeat split; first [reflexivity | assumption | congruence].
Qed.

Lemma bootstrap_on_config_error (w : World) (st : BootstrapState) :
  bootstrap_state_reply backend (history w) = inr st ->
  ready st = false \/ truthy (config_error st) = true ->
  status_textContent (page (world (bootstrap backend w))) = "Configuration error"
  /\ retry_disabled (page (world (bootstrap backend w))) = true
  /\ replies_to launch_app (events (bootstrap backend w)) = [].
Proof.
  intros Hreply Hfail.
  assert (Hgate : negb (ready st) || truthy (config_error st) = true).
  { destruct Hfail as [H | H]; rewrite H; [reflexivity | apply orb_true_r]. }
  unfold_frontend. cbn. rewrite Hreply. cbn. rewrite Hgate. cbn.
  split_cases; repeat split; reflexivity.
Qed.

(** X9. A configuration error is terminal for the whole page session:
    when the first [bootstrap] receives a state that is not ready or
    carries a configuration error, then whatever is clicked afterwards
    the page stays on "Configuration error" with Retry disabled, and
    neither [retry_connect] nor [launch_app] is ever invoked. *)
Theorem config_error_is_terminal_for_session (st : BootstrapState)
    (clicks : list Click) :
  bootstrap_state_reply backend [] = inr st ->
  ready st = false \/ truthy (config_error st) = true ->
  let o := session backend clicks in
  status_textContent (page (world o)) = "Configuration error"
  /\ retry_disabled (page (world o)) = true
  /\ replies_to retry_connect (events o) = []
  /\ replies_to launch_app (events o) = [].
Proof.
  intros Hreply Hfail. cbn zeta. unfold session, bind.
  pose proof (bootstrap_on_config_error initial_world st Hreply Hfail) as Hboot.
  pose proof (bootstrap_invocations backend initial_world) as (_ & _ & Hretry).
  pose proof (returns_bootstrap backend initial_world) as Hres.
  destruct (bootstrap backend initial_world) as [r w1 ev1].
  cbn in Hboot, Hretry, Hres. subst r.
  destruct Hboot as (Htext & Hdisabled & Hlaunch).
  pose proof (serve_while_retry_disabled clicks w1 Hdisabled) as Hserve.
  cbn zeta in Hserve.
  destruct (serve backend clicks w1) as [r w2 ev2]. cbn in Hserve |- *.
  destruct Hserve as (S1 & S2 & _ & S4 & _ & S6 & _).
  unfold invocations in Hretry. apply length_zero_iff_nil in Hretry.
  rewrite !replies_to_app, S1, S2, Hlaunch, Hretry.
  repeat split; congruence.
Qed.

Lemma retryConnection_rejected (cause : string) (w : World) :
  command_reply backend retry_connect (history w) = Some cause ->
  let o := retryConnection backend w in
  replies_to retry_connect (events o) = [Some cause]
  /\ status_textContent (page (world o)) = "Server is still unreachable."
  /\ details_textContent (page (world o)) = cause
  /\ details_hidden (page (world o)) = false
  /\ actions_hidden (page (world o)) = false
  /\ retry_disabled (page (world o)) = false.
Proof.
  intros Hrejects. unfold_frontend. cbn. rewrite Hrejects. cbn.
  split_cases; repeat split; reflexivity.
Qed.

Lemma retry_loop (cause : string) (n : nat) (w : World) :
  (forall h, command_reply backend retry_connect h = Some cause) ->
  retry_disabled (page w) = false ->
  let o := serve backend (replicate n ClickRetry) w in
  replies_to retry_connect (events o) = replicate n (Some cause)
  /\ retry_disabled (page (world o)) = false
  /\ (n = 0 -> world o = w)
  /\ (0 < n ->
      status_textContent (page (world o)) = "Server is still unreachable."
      /\ details_textContent (page (world o)) = cause
      /\ details_hidden (page (world o)) = false
      /\ actions_hidden (page (world o)) = false).
Proof.
  intros Hrejects. revert w. induction n as [| n IH]; intros w Henabled.
  - cbn. repeat split; [assumption | lia | lia | lia | lia].
  - cbn [replicate serve on_click]. unfold bind. rewrite Henabled.
    pose proof (retryConnection_rejected cause w (Hrejects _)) as Hstep.
    pose proof (returns_retryConnection backend w) as Hres.
    cbn zeta in Hstep.
    destruct (retryConnection backend w) as [r w1 ev1].
    cbn in Hstep, Hres. subst r.
    destruct Hstep as (Hcalls & Htext & Hdetails & Hdh & Hah & Hrd).
    specialize (IH w1 Hrd). cbn zeta in IH.
    destruct (serve backend (replicate n ClickRetry) w1) as [r w2 ev2].
    cbn in IH |- *. destruct IH as (Icalls & Ird & Inone & Ilater).
    rewrite replies_to_app, Hcalls, Icalls.
    split; [reflexivity |]. split; [assumption |].
    split; [discriminate |]. intros _.
    destruct n as [| n]; [| apply Ilater; lia].
    rewrite (Inone eq_refl). repeat split; assumption.
Qed.

(** X10. The retry flow stays available: on a native side that rejects
    every [retry_connect] with [cause], pressing an enabled Retry [n]
    times invokes [retry_connect] [n] times and leaves Retry enabled;
    after the first press the page shows "Server is still unreachable."
    with [cause]. *)
Theorem retry_stays_available (cause : string) (n : nat) (w : World) :
  (forall h, command_reply backend retry_connect h = Some cause) ->
  retry_disabled (page w) = false ->
  let o := serve backend (replicate n ClickRetry) w in
  replies_to retry_connect (events o) = replicate n (Some cause)
  /\ retry_disabled (page (world o)) = false
  /\ (0 < n ->
      status_textContent (page (world o)) = "Server is still unreachable."
      /\ details_textContent (page (world o)) = cause
      /\ details_hidden (page (world o)) = false
      /\ actions_hidden (page (world o)) = false).
Proof.
  intros Hrejects Henabled.
  pose proof (retry_loop cause n w Hrejects Henabled) as H. cbn zeta in *.
  destruct H as (Hcalls & Hrd & _ & Hlater). auto.
Qed.

End RetryFlow.

Lemma config_error_is_terminal_for_session_witness :
  retry_disabled
    (page (world (session (sample_backend (sample_state false None true true true))
                    [ClickRetry; ClickAbout; ClickRetry]))) = true
  /\ replies_to retry_connect
       (events (session (sample_backend (sample_state false None true true true))
                  [ClickRetry; ClickAbout; ClickRetry])) = [].
Proof.
  pose proof (config_error_is_terminal_for_session
                (sample_backend (sample_state false None true true true))
                (sample_state false None true true true)
                [ClickRetry; ClickAbout; ClickRetry]
                eq_refl (or_introl eq_refl))
    as (_ & Hdisabled & Hretry & _).
  split; [exact Hdisabled | exact Hretry].
Defined.

Lemma retry_stays_available_witness :
  replies_to retry_connect
    (events (serve (unreachable_backend (sample_state true None false true true)
                      "connection refused")
               [ClickRetry; ClickRetry; ClickRetry]
               (world (bootstrap
                         (unreachable_backend (sample_state true None false true true)
                            "connection refused")
                         initial_world))))
  = [Some "connection refused"; Some "connection refused";
     Some "connection refused"].
Proof.
  apply (retry_stays_available
           (unreachable_backend (sample_state true None false true true)
              "connection refused")
           "connection refused" 3
           (world (bootstrap
                     (unreachable_backend (sample_state true None false true true)
                        "connection refused")
                     initial_world))).
  - intros h. reflexivity.
  - reflexivity.
Defined.

(** * The current frontend against the earlier one, beyond the dispatch *)

Section AgainstLegacy.

Variable backend : Backend.

(** X11. The About dialog extends the earlier one: on the same About
    record the current body is the earlier body followed by further
    lines, and on a rejection both show the same "About information
    unavailable: " text. *)
Theorem about_extends_legacy (w w' : World) :
  history w = history w' ->
  match about_info_reply backend (history w) with
  | inr _ =>
      exists more,
        aboutBody_textContent (page (world (showAboutDialog backend w)))
        = aboutBody_textContent (page (world (Legacy.showAboutDialog backend w')))
          +:+ LF +:+ more
  | inl _ =>
      aboutBody_textContent (page (world (showAboutDialog backend w)))
      = aboutBody_textContent (page (world (Legacy.showAboutDialog backend w')))
  end.
Proof.
  intros Hhistory.
  unfold showAboutDialog, Legacy.showAboutDialog, invoke_get_about_info.
  unfold_frontend. cbn. rewrite <- Hhistory.
  destruct (about_info_reply backend (history w)) as [cause | info]; cbn;
    [reflexivity |].
  eexists. unfold about_lines. cbn [String.concat app].
  rewrite !string_app_assoc. reflexivity.
Qed.

(** X12. Retry behaves as before the parity gate: started with the same
    command history, the current [retryConnection] and the earlier one
    invoke [retry_connect] once and leave the same screen (status line,
    error text, Retry state). *)
Theorem retryConnection_refines_legacy (w w' : World) :
  history w = history w' ->
  screen_of (retryConnection backend w)
  = screen_of (Legacy.retryConnection backend w')
  /\ replies_to retry_connect (events (retryConnection backend w))
     = replies_to retry_connect (events (Legacy.retryConnection backend w')).
Proof.
  intros Hhistory. unfold screen_of, Legacy.retryConnection.
  unfold_legacy. unfold_frontend. cbn. rewrite <- Hhistory.
  split_cases; split; reflexivity.
Qed.

(** X13. A rejected [bootstrap_state] is reported as before the parity
    gate: started with the same command history, both versions of
    [bootstrap] end on "Bootstrap failed" with the rejection text and
    Retry enabled, and neither invokes [launch_app]. *)
Theorem bootstrap_rejected_refines_legacy (w w' : World) (cause : string) :
  history w = history w' ->
  bootstrap_state_reply backend (history w) = inl cause ->
  screen_of (bootstrap backend w) = screen_of (Legacy.bootstrap backend w')
  /\ screen_of (bootstrap backend w)
     = {| screen_status := ("status error", "Bootstrap failed");
          screen_error := Some cause;
          screen_retry_disabled := false;
          screen_launches := [] |}.
Proof.
  intros Hhistory Hreply. unfold screen_of.
  unfold_legacy. unfold_frontend. cbn.
  rewrite <- Hhistory, Hreply. cbn.
  split_cases; split; reflexivity.
Qed.

(** X14. The parity gate acts on one case only.  On a ready,
    error-free, reachable state the earlier [bootstrap] always invokes
    [launch_app] once, and the current one invokes it exactly when
    parity holds or enforcement is off. *)
Theorem parity_gate_blocks_only_enforced_mismatch (w w' : World)
    (st : BootstrapState) :
  history w = history w' ->
  bootstrap_state_reply backend (history w) = inr st ->
  ready st = true ->
  config_error st = None ->
  reachable st = true ->
  invocations launch_app (events (Legacy.bootstrap backend w')) = 1
  /\ invocations launch_app (events (bootstrap backend w))
     = (if build_parity_ok st || negb (enforce_web_build st) then 1 else 0).
Proof.
  intros Hhistory Hreply Hready Hcfg Hreach. unfold invocations.
  unfold_legacy. unfold_frontend. cbn.
  rewrite <- Hhistory, Hreply. cbn. rewrite Hready, Hcfg, Hreach. cbn.
  split_cases; split; reflexivity.
Qed.

(** X15. The non-enforcing parity warning does not outlast the launch.
    On a ready, error-free, reachable state that fails parity with
    enforcement off: if [launch_app] resolves, the page ends in loader
    mode ("Opening remote app...") with the details hidden, still
    holding the hinted message; if it is rejected, the page ends on the
    error "Could not open the app." and the details show the rejection
    text instead of the hinted message. *)
Theorem parity_warning_final_page (w : World) (st : BootstrapState) :
  bootstrap_state_reply backend (history w) = inr st ->
  ready st = true ->
  config_error st = None ->
  reachable st = true ->
  build_parity_ok st = false ->
  enforce_web_build st = false ->
  let o := bootstrap backend w in
  match command_reply backend launch_app (bootstrap_state :: history w) with
  | None =>
      status_className (page (world o)) = "status loading"
      /\ status_textContent (page (world o)) = "Opening remote app..."
      /\ details_hidden (page (world o)) = true
      /\ actions_hidden (page (world o)) = true
      /\ retry_disabled (page (world o)) = true
      /\ details_textContent (page (world o)) = withHints st
  | Some cause =>
      status_className (page (world o)) = "status error"
      /\ status_textContent (page (world o)) = "Could not open the app."
      /\ details_hidden (page (world o)) = false
      /\ retry_disabled (page (world o)) = false
      /\ details_textContent (page (world o)) = cause
  end.
Proof.
  intros Hreply Hready Hcfg Hreach Hok Henf.
  unfold_frontend. cbn. rewrite Hreply. cbn.
  rewrite Hready, Hcfg, Hreach, Hok, Henf. cbn.
  destruct (command_reply backend launch_app (bootstrap_state :: history w));
    cbn; split_cases; repeat split; reflexivity.
Qed.

(** X16. A refused [show_main_window] is tried again: when
    [windowVisible] is not set and the command is rejected,
    [ensureMainWindowVisible] returns with the page and [windowVisible]
    unchanged, so the next call invokes the command once more. *)
Theorem refused_show_is_retried (w : World) (cause : string) :
  windowVisible w = false ->
  command_reply backend show_main_window (history w) = Some cause ->
  let o := ensureMainWindowVisible backend w in
  res o = inr tt
  /\ page (world o) = page w
  /\ windowVisible (world o) = false
  /\ events (ensureMainWindowVisible backend (world o))
     = [Invoked show_main_window
          (command_reply backend show_main_window
             (show_main_window :: history w))].
Proof.
  intros Hhidden Hrefused. unfold_frontend. cbn.
  rewrite Hhidden. cbn. rewrite Hrefused. cbn.
  rewrite Hhidden. cbn.
  destruct (command_reply backend show_main_window
              (show_main_window :: history w));
    repeat split; reflexivity.
Qed.

End AgainstLegacy.

Lemma about_extends_legacy_witness :
  exists more,
    aboutBody_textContent
      (page (world (showAboutDialog (about_backend (sample_about None))
                      initial_world)))
    = aboutBody_textContent
        (page (world (Legacy.showAboutDialog (about_backend (sample_about None))
                        initial_world)))
      +:+ LF +:+ more.
Proof.
  exact (about_extends_legacy (about_backend (sample_about None))
           initial_world initial_world eq_refl).
Defined.

Lemma retryConnection_refines_legacy_witness :
  screen_of (retryConnection
               (unreachable_backend (sample_state true None false true true)
                  "connection refused")
               initial_world)
  = screen_of (Legacy.retryConnection
                 (unreachable_backend (sample_state true None false true true)
                    "connection refused")
                 initial_world).
Proof.
  exact (proj1 (retryConnection_refines_legacy
                  (unreachable_backend (sample_state true None false true true)
                     "connection refused")
                  initial_world initial_world eq_refl)).
Defined.

Lemma bootstrap_rejected_refines_legacy_witness :
  screen_of (bootstrap (broken_backend "ipc closed") initial_world)
  = screen_of (Legacy.bootstrap (broken_backend "ipc closed") initial_world).
Proof.
  exact (proj1 (bootstrap_rejected_refines_legacy (broken_backend "ipc closed")
                  initial_world initial_world "ipc closed" eq_refl eq_refl)).
Defined.

Lemma parity_gate_blocks_only_enforced_mismatch_witness :
  invocations launch_app
    (events (Legacy.bootstrap
               (sample_backend (sample_state true None true false true))
               initial_world)) = 1
  /\ invocations launch_app
       (events (bootstrap (sample_backend (sample_state true None true false true))
                  initial_world)) = 0.
Proof.
  exact (parity_gate_blocks_only_enforced_mismatch
           (sample_backend (sample_state true None true false true))
           initial_world initial_world
           (sample_state true None true false true)
           eq_refl eq_refl eq_refl eq_refl eq_refl).
Defined.

Lemma parity_warning_final_page_witness :
  details_hidden
    (page (world (bootstrap (sample_backend (sample_state true None true false false))
                    initial_world))) = true
  /\ details_textContent
       (page (world (bootstrap
                       (sample_backend (sample_state true None true false false))
                       initial_world)))
     = withHints (sample_state true None true false false).
Proof.
  pose proof (parity_warning_final_page
                (sample_backend (sample_state true None true false false))
                initial_world (sample_state true None true false false)
                eq_refl eq_refl eq_refl eq_refl eq_refl eq_refl)
    as (_ & _ & Hhidden & _ & _ & Hdetails).
  split; [exact Hhidden | exact Hdetails].
Defined.

Lemma refused_show_is_retried_witness :
  windowVisible
    (world (ensureMainWindowVisible
              (stubborn_backend (sample_state true None false true true))
              initial_world)) = false.
Proof.
  pose proof (refused_show_is_retried
                (stubborn_backend (sample_state true None false true true))
                initial_world "window unavailable" eq_refl eq_refl)
    as (_ & _ & Hstill & _).
  exact Hstill.
Defined.

(** * Mounting the page *)

#[local] Set Warnings "-clear-no-such-hyp".









(** A [textarea] root is declined rather than guessed at. *)
Example mount_declines_textarea : mount textarea_document = OutsideModel.
Proof. reflexivity. Qed.



(** * The earlier handlers *)

Section LegacyHandlers.

Variable backend : Backend.

(** X19. The earlier frontend lets no rejection escape either: its
    [bootstrap], [openRemoteApp], [retryConnection] and
    [showAboutDialog] return normally whatever the native side
    answers. *)
Theorem legacy_handlers_never_reject :
  returns (Legacy.bootstrap backend)
  /\ returns (Legacy.openRemoteApp backend)
  /\ returns (Legacy.retryConnection backend)
  /\ returns (Legacy.showAboutDialog backend).
Proof.
  repeat split; intros w;
    unfold Legacy.showAboutDialog, Legacy.retryConnection,
      invoke_get_about_info;
    unfold_legacy; cbn; split_cases; reflexivity.
Qed.

End LegacyHandlers.

(** * The packaging script *)

Lemma string_length_app (a b : string) :
  String.length (a +:+ b) = String.length a + String.length b.
Proof.
  induction a as [| ch a IH]; [reflexivity |].
  change (S (String.length (a +:+ b)) = S (String.length a + String.length b)).
  now f_equal.
Qed.

Lemma string_app_inv_head (s a b : string) :
  s +:+ a = s +:+ b -> a = b.
Proof.
  induction s as [| ch s IH]; [exact (fun H => H) |].
  intros H. change (String ch (s +:+ a) = String ch (s +:+ b)) in H.
  injection H as H. exact (IH H).
Qed.

Lemma string_app_inv_tail (s a b : string) :
  a +:+ s = b +:+ s -> a = b.
Proof.
  revert b. induction a as [| ch a IH]; intros [| ch' b] H.
  - reflexivity.
  - change (s = String ch' (b +:+ s)) in H.
    apply (f_equal String.length) in H.
    change (String.length s = S (String.length (b +:+ s))) in H.
    rewrite string_length_app in H. lia.
  - change (String ch (a +:+ s) = s) in H.
    apply (f_equal String.length) in H.
    change (S (String.length (a +:+ s)) = String.length s) in H.
    rewrite string_length_app in H. lia.
  - change (String ch (a +:+ s) = String ch' (b +:+ s)) in H.
    injection H as -> H. f_equal. exact (IH b H).
Qed.

Lemma string_app_inv_length (a a' b b' : string) :
  String.length a = String.length a' ->
  a +:+ b = a' +:+ b' -> a = a' /\ b = b'.
Proof.
  revert a'. induction a as [| ch a IH]; intros [| ch' a'] Hlen H;
    try discriminate Hlen.
  - split; [reflexivity | exact H].
  - change (String ch (a +:+ b) = String ch' (a' +:+ b')) in H.
    injection H as -> H. injection Hlen as Hlen.
    destruct (IH a' Hlen H) as [-> ->]. split; reflexivity.
Qed.

Module PackagingFacts.
Import Packaging.

(** X20. The artifact name is determined by the version and determines
    it: two versions are packaged under the same name only if they are
    the same version. *)
Theorem artifactName_injective (v v' : string) :
  artifactName v = artifactName v' -> v = v'.
Proof.
  unfold artifactName. intros H.
  apply string_app_inv_head in H. now apply string_app_inv_tail in H.
Qed.

(** X21. The checksum line pairs one hash with one name: two lines
    written for hashes of the same length (as SHA-256 digests are) are
    equal only if both the hashes and the artifact names are. *)
Theorem sha256_line_injective (hash hash' name name' : string) :
  String.length hash = String.length hash' ->
  sha256_line hash name = sha256_line hash' name' ->
  hash = hash' /\ name = name'.
Proof.
  unfold sha256_line. intros Hlen H.
  destruct (string_app_inv_length _ _ _ _ Hlen H) as [-> Hname].
  split; [reflexivity |]. now apply string_app_inv_head in Hname.
Qed.

Lemma artifactName_injective_witness :
  "0.1.14" = "0.1.14".
Proof.
  exact (artifactName_injective "0.1.14" "0.1.14" eq_refl).
Defined.

Lemma sha256_line_injective_witness :
  "ab12" = "ab12" /\ artifactName "0.1.14" = artifactName "0.1.14".
Proof.
  exact (sha256_line_injective "ab12" "ab12" (artifactName "0.1.14")
           (artifactName "0.1.14") eq_refl eq_refl).
Defined.

End PackagingFacts.
